(** * TNM patient similarity page: stage matching and result retrieval

    Shallow embedding of [pages/similarity.py].  The three Dash callbacks
    share five module-level variables; each callback is a computation
    over that store which may raise a Python exception and which
    records, in order, every access to the store and, for
    [get_similarity_analysis_results] and [survival_profile], every call
    of a library routine.

    Numbers.  The remote service returns JSON numbers and numpy computes
    with binary64 floats.  They are modelled by exact rationals, and a
    Euclidean distance by the rational under its square root; rounding
    is therefore outside the model.  Labels are byte strings, compared
    the way numpy compares them: trailing NUL characters are ignored. *)

From Stdlib Require Import List String Ascii Bool Arith ZArith QArith Qround Qreals.
From Stdlib Require Import Reals Lia Psatz.
Import ListNotations.

Local Open Scope string_scope.
Local Open Scope list_scope.

(** ** The shared store, exceptions and the trace *)

(** The variables declared under "Global variables" (lines 30-34). *)
Inductive global := Gclient | Gtask | Gstart | Gcentroids | Gprofiles.

(** Library routines whose calls are recorded. *)
Inductive routine :=
| NpWhere | DistanceEuclidean | NpArgmin | PdDataFrame
| ClientTaskGet | ClientResultList.

Inductive event :=
| Load (g : global)
| Store (g : global)
| Call (f : routine).

(** The exceptions of the Python run time that the modelled code can
    raise, followed by the five error kinds of the written error
    taxonomy.  No function below builds one of the latter five. *)
Inductive exn :=
| IndexError | TypeError | ValueError | KeyError
| UnboundLocalError | AttributeError
| SubmissionError | NotReadyError | MissingResultError
| InvalidStageError | NoResultsAvailableError.

Inductive result (A : Type) :=
| Ok (a : A)
| Raise (e : exn).
Arguments Ok {A} a.
Arguments Raise {A} e.

(** A centroid is a point of TNM-numeric space. *)
Definition point : Type := (Q * Q * Q)%type.

(** Handle returned by [client.task.create]; [task['id']] needs the key. *)
Record task_handle := { th_id : option Z }.

(** The store.  [None] is Python's [None], the initial value of each. *)
Record globals := {
  client : option unit;
  task : option task_handle;
  start : option Q;
  centroids : option (list point);
  profiles : option (list (list Q))
}.

Definition initial : globals :=
  {| client := None; task := None; start := None;
     centroids := None; profiles := None |}.

Definition set_centroids (v : option (list point)) (g : globals) : globals :=
  {| client := client g; task := task g; start := start g;
     centroids := v; profiles := profiles g |}.

Definition set_profiles (v : option (list (list Q))) (g : globals) : globals :=
  {| client := client g; task := task g; start := start g;
     centroids := centroids g; profiles := v |}.

(** Computations: store in, outcome, store and trace out. *)
Definition M (A : Type) : Type := globals -> result A * globals * list event.

Definition ret {A} (a : A) : M A := fun g => (Ok a, g, []).

Definition raise {A} (e : exn) : M A := fun g => (Raise e, g, []).

Definition bind {A B} (m : M A) (k : A -> M B) : M B :=
  fun g =>
    match m g with
    | (Ok a, g1, l1) =>
        match k a g1 with
        | (r, g2, l2) => (r, g2, l1 ++ l2)
        end
    | (Raise e, g1, l1) => (Raise e, g1, l1)
    end.

Declare Scope py_scope.
Delimit Scope py_scope with py.
Notation "x <- m ;; k" := (bind m (fun x => k))
  (at level 61, m at next level, right associativity) : py_scope.
Notation "m ;;; k" := (bind m (fun _ => k))
  (at level 61, right associativity) : py_scope.
Local Open Scope py_scope.

Definition call {A} (f : routine) (r : result A) : M A :=
  fun g => (r, g, [Call f]).

Definition load {A} (x : global) (proj : globals -> A) : M A :=
  fun g => (Ok (proj g), g, [Load x]).

Definition store (x : global) (upd : globals -> globals) : M unit :=
  fun g => (Ok tt, upd g, [Store x]).

Definition outcome {A} (r : result A * globals * list event) : result A :=
  fst (fst r).
Definition final {A} (r : result A * globals * list event) : globals :=
  snd (fst r).
Definition trace {A} (r : result A * globals * list event) : list event :=
  snd r.

(** ** TNM common data model (lines 40-51) *)

Record cdm := {
  t_values : list string;
  n_values : list string;
  m_values : list string
}.

(** [list(range(len(values)))] *)
Definition nvalues (values : list string) : list nat := seq 0 (List.length values).

Definition t_nvalues (c : cdm) := nvalues (t_values c).
Definition n_nvalues (c : cdm) := nvalues (n_values c).
Definition m_nvalues (c : cdm) := nvalues (m_values c).

(** A string without its trailing NUL characters: numpy stores strings
    in fixed-width cells padded with NUL, so trailing NULs carry no
    information in an array or in a comparison with one. *)
Fixpoint rstrip_nul (s : string) : string :=
  match s with
  | EmptyString => EmptyString
  | String a rest =>
      match rstrip_nul rest with
      | EmptyString => if Ascii.eqb a Ascii.zero then EmptyString
                       else String a EmptyString
      | r => String a r
      end
  end.

(** One cell of [np.array(values) == x]. *)
Definition np_eqb (v x : string) : bool :=
  String.eqb (rstrip_nul v) (rstrip_nul x).

(** [np.where(np.array(values) == x)[0]]: the positions whose entry
    compares equal to [x], in increasing order. *)
Fixpoint where_eq (values : list string) (x : string) (i : nat) : list nat :=
  match values with
  | [] => []
  | v :: rest =>
      if np_eqb v x then i :: where_eq rest x (S i)
      else where_eq rest x (S i)
  end.

(** Python indexing [l[i]] with a non-negative index. *)
Definition getitem {A} (l : list A) (i : nat) : result A :=
  match nth_error l i with
  | Some a => Ok a
  | None => Raise IndexError
  end.

(** Lines 216-217 (and 219-220, 222-223): position of the label, then
    the ordinal stored at that position. *)
Definition encode (values : list string) (x : string) : result nat :=
  match getitem (where_eq values x 0) 0 with
  | Ok idx => getitem (nvalues values) idx
  | Raise e => Raise e
  end.

(** Modelled from the spec: the index-to-label direction of the staging
    lookup, which the source never calls; it is indexing of the value
    list. *)
Definition decode (values : list string) (i : nat) : option string :=
  nth_error values i.

(** ** Distances (line 227) *)

(** A Euclidean distance, held exactly as its square: the value denoted
    is [sqrt (dist_sq d)]. *)
Record Dist := mkDist { dist_sq : Q }.

Definition sqr (x : Q) : Q := x * x.

(** [distance.euclidean(xi, xj)]: square root of the sum of the squared
    coordinate differences, in exact arithmetic.  The library returns
    the binary64 rounding of it, so two distances that differ by less
    than the rounding error can come out equal in the code. *)
Definition euclidean (xi xj : point) : Dist :=
  let '(a1, a2, a3) := xi in
  let '(b1, b2, b3) := xj in
  mkDist (sqr (a1 - b1) + sqr (a2 - b2) + sqr (a3 - b3)).

(** The real number a distance stands for. *)
Definition Dist_val (d : Dist) : R := sqrt (Q2R (dist_sq d)).

(** [a < b] on distances; square root is increasing, so the squares are
    compared. *)
Definition Dist_ltb (a b : Dist) : bool :=
  negb (Qle_bool (dist_sq b) (dist_sq a)).

(** The scan of [np.argmin]: [best] is the position of the smallest value
    [bv] seen so far, replaced only by a strictly smaller one. *)
Fixpoint argmin_from (best : nat) (bv : Dist) (i : nat) (l : list Dist) : nat :=
  match l with
  | [] => best
  | d :: rest =>
      if Dist_ltb d bv then argmin_from i d (S i) rest
      else argmin_from best bv (S i) rest
  end.

(** [np.argmin(distances)]; an empty sequence is a [ValueError]. *)
Definition argmin (l : list Dist) : result nat :=
  match l with
  | [] => Raise ValueError
  | d :: rest => Ok (argmin_from 0 d 1 rest)
  end.

(** ** Page output *)

(** [pd.DataFrame] with the two columns of line 231. *)
Record DataFrame := {
  survival_rate : list Q;
  survival_days : list Z
}.

(** Rows of a frame, as (day, rate) pairs. *)
Definition rows (d : DataFrame) : list (Z * Q) :=
  combine (survival_days d) (survival_rate d).

(** [px.line(dfp, x=..., y=..., range_y=[lo, hi])] *)
Record figure := {
  fig_data : DataFrame;
  fig_x : string;
  fig_y : string;
  fig_range_y : Z * Z
}.

(** Dash components; style attributes are left out. *)
Inductive html :=
| Plaintext (s : string)
| PlaintextDuration (minutes : Q)
| H4 (s : string)
| Graph (f : figure)
| Div (children : list html).

(** [list(range(start, stop, step))] for a positive step. *)
Definition py_range (start stop step : Z) : list Z :=
  map (fun k => (start + step * Z.of_nat k)%Z)
      (seq 0 (Z.to_nat ((stop - start + step - 1) / step))).

(** The dict constructor of [pd.DataFrame]: columns of unequal length
    are refused with a [ValueError]. *)
Definition mkDataFrame (rate : list Q) (days : list Z) : result DataFrame :=
  if Nat.eqb (List.length rate) (List.length days)
  then Ok {| survival_rate := rate; survival_days := days |}
  else Raise ValueError.

(** ** The stage-matching callback (lines 213-251) *)

(** Truth value of a dropdown value: [None] and [''] are false. *)
Definition truthy (x : option string) : bool :=
  match x with
  | Some s => negb (String.eqb s "")
  | None => false
  end.

Definition label (x : option string) : string :=
  match x with Some s => s | None => "" end.

Definition of_nat (k : nat) : Q := inject_Z (Z.of_nat k).

(** Lines 216-223. *)
Definition encode_stage (c : cdm) (t n m : string) : M point :=
  t' <- call NpWhere (encode (t_values c) t) ;;
  n' <- call NpWhere (encode (n_values c) n) ;;
  m' <- call NpWhere (encode (m_values c) m) ;;
  ret (of_nat t', of_nat n', of_nat m').

(** The list comprehension of line 227 over an already loaded list. *)
Fixpoint distances_of (xi : point) (cs : list point) : M (list Dist) :=
  match cs with
  | [] => ret []
  | xj :: rest =>
      d <- call DistanceEuclidean (Ok (euclidean xi xj)) ;;
      ds <- distances_of xi rest ;;
      ret (d :: ds)
  end.

(** Lines 226-228: iterating over [None] is a [TypeError]. *)
Definition closest_cluster (xi : point) : M nat :=
  cs <- load Gcentroids centroids ;;
  match cs with
  | None => raise TypeError
  | Some cs =>
      distances <- distances_of xi cs ;;
      call NpArgmin (argmin distances)
  end.

(** Lines 231-234: subscripting [None] is a [TypeError]. *)
Definition profile_frame (idx : nat) : M DataFrame :=
  ps <- load Gprofiles profiles ;;
  match ps with
  | None => raise TypeError
  | Some ps =>
      rate <- (fun g => (getitem ps idx, g, [])) ;;
      call PdDataFrame (mkDataFrame rate (py_range 0 730 30))
  end.

Definition line (dfp : DataFrame) : figure :=
  {| fig_data := dfp; fig_x := "survival days"; fig_y := "survival rate";
     fig_range_y := (0%Z, 1%Z) |}.

Definition survival_profile (c : cdm) (t n m : option string) : M html :=
  if truthy t && truthy n && truthy m then
    xi <- encode_stage c (label t) (label n) (label m) ;;
    idx <- closest_cluster xi ;;
    dfp <- profile_frame idx ;;
    ret (Div [H4 "Survival profile for similar patients:"; Graph (line dfp)])
  else ret (Plaintext "").

(** ** The retrieval callback (lines 177-204) *)

(** Answer of [client.task.get]; a field is [None] when the key is absent. *)
Record task_info := {
  ti_complete : option bool;
  ti_id : option Z
}.

(** [result_info['data'][0]]: the ['result'] dict, whose two values may
    be JSON null, and the parsed ['finished_at'] time in seconds. *)
Record payload := {
  p_centroids : option (option (list point));
  p_profiles : option (option (list (list Q)))
}.

Record result_entry := {
  e_result : option payload;
  e_finished_at : option Q
}.

Record result_info := { ri_data : option (list result_entry) }.

(** The remote execution service, as the answers it gives. *)
Record remote := {
  task_get : Z -> result task_info;
  result_list : Z -> result result_info
}.

(** [d[key]] on a dict. *)
Definition getkey {A} (o : option A) : result A :=
  match o with
  | Some a => Ok a
  | None => Raise KeyError
  end.

Definition lift {A} (r : result A) : M A := fun g => (r, g, []).

(** Truth value of [task_info.get('complete')]. *)
Definition is_complete (ti : task_info) : bool :=
  match ti_complete ti with
  | Some b => b
  | None => false
  end.

(** Truth value of a list-or-[None] variable. *)
Definition nonempty {A} (x : option (list A)) : bool :=
  match x with
  | Some (_ :: _) => true
  | _ => false
  end.

Definition round_half_even (x : Q) : Z :=
  let f := Qfloor x in
  match Qcompare (x - inject_Z f) (1 # 2) with
  | Lt => f
  | Gt => (f + 1)%Z
  | Eq => if Z.even f then f else (f + 1)%Z
  end.

(** [round(x, 3)] on the exact quotient, ties to even.  Line 192 rounds
    the binary64 quotient, which can fall on the other side of a tie;
    no statement below depends on the value. *)
Definition round3 (x : Q) : Q :=
  inject_Z (round_half_even (x * inject_Z 1000)) / inject_Z 1000.

(** Lines 188-192; the value is the local [duration]. *)
Definition fetch_results (r : remote) (ti : task_info) : M Q :=
  _ <- load Gclient client ;;
  tid <- lift (getkey (ti_id ti)) ;;
  result_info <- call ClientResultList (result_list r tid) ;;
  data <- lift (getkey (ri_data result_info)) ;;
  e <- lift (getitem data 0) ;;
  res <- lift (getkey (e_result e)) ;;
  cs <- lift (getkey (p_centroids res)) ;;
  store Gcentroids (set_centroids cs) ;;;
  ps <- lift (getkey (p_profiles res)) ;;
  store Gprofiles (set_profiles ps) ;;;
  finish <- lift (getkey (e_finished_at e)) ;;
  st <- load Gstart start ;;
  match st with
  | None => raise TypeError
  | Some s => ret (round3 ((finish - s) / inject_Z 60))
  end.

(** Lines 195-202; [duration] is the local of that name, unbound when
    the branch of line 187 was not taken. *)
Definition report (duration : option Q) : M html :=
  cs <- load Gcentroids centroids ;;
  both <- (if nonempty cs
           then ps <- load Gprofiles profiles ;; ret (nonempty ps)
           else ret false) ;;
  if both : bool then
    match duration with
    | Some d => ret (Div [PlaintextDuration d])
    | None => raise UnboundLocalError
    end
  else ret (Div [Plaintext "Still waiting for results, try again..."]).

Definition get_similarity_analysis_results (r : remote) (n_clicks : Z) : M html :=
  if (0 <? n_clicks)%Z then
    c <- load Gclient client ;;
    match c with
    | None => raise AttributeError
    | Some _ =>
        tk <- load Gtask task ;;
        match tk with
        | None => raise TypeError
        | Some h =>
            id <- lift (getkey (th_id h)) ;;
            ti <- call ClientTaskGet (task_get r id) ;;
            duration <- (if is_complete ti
                         then d <- fetch_results r ti ;; ret (Some d)
                         else ret None) ;;
            report duration
        end
    end
  else ret (Plaintext "").

(** ** Traces, equalities and rendered pages *)

(** Events of the three label lookups of lines 216-223. *)
Definition encode_trace : list event := [Call NpWhere; Call NpWhere; Call NpWhere].

(** Events of one matching step over [k] centroids. *)
Definition matching_trace (k : nat) : list event :=
  Load Gcentroids :: repeat (Call DistanceEuclidean) k ++ [Call NpArgmin].

(** Numerically equal points and centroid sets. *)
Definition point_eq (a b : point) : Prop :=
  let '(a1, a2, a3) := a in
  let '(b1, b2, b3) := b in
  a1 == b1 /\ a2 == b2 /\ a3 == b3.

Definition same_centroids (x y : option (list point)) : Prop :=
  match x, y with
  | None, None => True
  | Some cs1, Some cs2 => Forall2 point_eq cs1 cs2
  | _, _ => False
  end.

(** The component returned at line 237. *)
Definition page (dfp : DataFrame) : html :=
  Div [H4 "Survival profile for similar patients:"; Graph (line dfp)].

(** What the callback returns once [profiles[idx]] is in hand. *)
Definition rendered (p : list Q) : result html :=
  match mkDataFrame p (py_range 0 730 30) with
  | Ok dfp => Ok (page dfp)
  | Raise e => Raise e
  end.

(** The component returned at line 200. *)
Definition still_waiting : html :=
  Div [Plaintext "Still waiting for results, try again..."].

(** ** Sample data *)

Definition scheme : cdm :=
  {| t_values := ["T1"; "T2"]; n_values := ["N0"; "N1"];
     m_values := ["M0"; "M1"] |}.

Definition origin : point := (0, 0, 0).
Definition ones : point := (1, 1, 1).
Definition sample_query : point := (1, 1, 0).

Definition two_centroids : list point := [origin; ones].

Definition flat_profile : list Q := repeat 1 25.

Definition falling_profile : list Q :=
  map (fun k => 1 - (Z.of_nat k # 25)) (seq 0 25).

(** Two centroids, one profile. *)
Definition one_profile : globals :=
  set_profiles (Some [flat_profile]) (set_centroids (Some two_centroids) initial).

(** Two centroids, two profiles. *)
Definition two_profiles : globals :=
  set_profiles (Some [flat_profile; falling_profile])
    (set_centroids (Some two_centroids) initial).

(** A service whose task is still running, and the store after a
    submission. *)
Definition idle_remote : remote :=
  {| task_get := fun _ => Ok {| ti_complete := Some false; ti_id := Some 3%Z |};
     result_list := fun _ => Raise KeyError |}.

Definition submitted : globals :=
  {| client := Some tt; task := Some {| th_id := Some 3%Z |};
     start := Some 0; centroids := None; profiles := None |}.

(** ** Frame conditions *)

Definition is_store (e : event) : bool :=
  match e with
  | Store _ => true
  | _ => false
  end.

Definition is_remote_call (e : event) : bool :=
  match e with
  | Call ClientTaskGet | Call ClientResultList => true
  | _ => false
  end.

(** [m] ends in the store it started in and records neither a store nor
    a call of the remote service. *)
Definition read_only {A} (m : M A) : Prop :=
  forall g, final (m g) = g /\
            Forall (fun e => is_store e = false /\ is_remote_call e = false)
                   (trace (m g)).

(** [m] relates the store it ends in to the store it started in. *)
Definition keeps {A} (R : globals -> globals -> Prop) (m : M A) : Prop :=
  forall g, R g (final (m g)).

(** Every exception [m] can end in satisfies [P]. *)
Definition raises_within {A} (P : exn -> Prop) (m : M A) : Prop :=
  forall g e, outcome (m g) = Raise e -> P e.

(** The variables written by the submission callback. *)
Definition same_session (g g' : globals) : Prop :=
  client g = client g' /\ task g = task g' /\ start g = start g'.

(** The variables written by the retrieval callback. *)
Definition same_results (g g' : globals) : Prop :=
  centroids g = centroids g' /\ profiles g = profiles g'.

(** The exceptions the stage-matching callback can end in. *)
Definition matching_exn (e : exn) : Prop :=
  e = IndexError \/ e = TypeError \/ e = ValueError.

(** Events of lines 186-187, up to the answer of [client.task.get]. *)
Definition poll_trace : list event := [Load Gclient; Load Gtask; Call ClientTaskGet].

(** Events of lines 188-192 when every key is present. *)
Definition fetch_trace : list event :=
  [Load Gclient; Call ClientResultList; Store Gcentroids; Store Gprofiles;
   Load Gstart].

(** The component returned at line 196. *)
Definition completed (minutes : Q) : html := Div [PlaintextDuration minutes].

(** A service whose task has finished after 90 seconds with two
    clusters, and services whose answer lacks the profiles or holds no
    centroid. *)
Definition done_info : task_info := {| ti_complete := Some true; ti_id := Some 3%Z |}.

Definition done_payload : payload :=
  {| p_centroids := Some (Some two_centroids);
     p_profiles := Some (Some [flat_profile; falling_profile]) |}.

Definition answer_with (res : payload) : remote :=
  {| task_get := fun _ => Ok done_info;
     result_list := fun _ =>
       Ok {| ri_data := Some [{| e_result := Some res;
                                 e_finished_at := Some 90 |}] |} |}.

Definition done_remote : remote := answer_with done_payload.

Definition torn_remote : remote :=
  answer_with {| p_centroids := Some (Some two_centroids); p_profiles := None |}.

Definition empty_remote : remote :=
  answer_with {| p_centroids := Some (Some []);
                 p_profiles := Some (Some [flat_profile]) |}.

(** The store after a submission at time 0 that follows an earlier
    successful retrieval. *)
Definition resubmitted : globals :=
  {| client := Some tt; task := Some {| th_id := Some 3%Z |};
     start := Some 0; centroids := Some two_centroids;
     profiles := Some [flat_profile; falling_profile] |}.

(** ** The submission callback (lines 120-170) *)

Definition set_client (v : option unit) (g : globals) : globals :=
  {| client := v; task := task g; start := start g;
     centroids := centroids g; profiles := profiles g |}.

Definition set_start (v : option Q) (g : globals) : globals :=
  {| client := client g; task := task g; start := v;
     centroids := centroids g; profiles := profiles g |}.

Definition set_task (v : option task_handle) (g : globals) : globals :=
  {| client := client g; task := v; start := start g;
     centroids := centroids g; profiles := profiles g |}.

(** What [client.task.create] returns: [None], the empty dict, or a
    dict with at least one key (with or without ['id']). *)
Inductive created :=
| CreatedNone
| CreatedEmpty
| CreatedTask (h : task_handle).

(** The value assigned to [task] and its truth value at line 159. *)
Definition as_task (t : created) : option task_handle :=
  match t with
  | CreatedNone => None
  | CreatedEmpty => Some {| th_id := None |}
  | CreatedTask h => Some h
  end.

Definition created_truthy (t : created) : bool :=
  match t with
  | CreatedTask _ => true
  | _ => false
  end.

(** The service during a submission, as the answers it gives; the calls
    of the submission are not among the recorded routines. *)
Record submission := {
  s_client : result unit;
  s_authenticate : result unit;
  s_setup_encryption : result unit;
  s_time : Q;
  s_create : result created
}.

(** Components returned by the submission callback. *)
Inductive widget :=
| WPlaintext (s : string)
| WP
| WButton (text id : string) (n_clicks : Z)
| WDiv (children : list widget).

Definition task_created : widget :=
  WDiv [WPlaintext "Task was created, waiting for results...";
        WP;
        WButton "Get results" "get-results" 0].

Definition went_wrong : widget := WDiv [WPlaintext "Something went wrong..."].

Definition send_similarity_analysis_task (s : submission) (n_clicks : Z) : M widget :=
  if (0 <? n_clicks)%Z then
    c <- lift (s_client s) ;;
    store Gclient (set_client (Some c)) ;;;
    _ <- load Gclient client ;;
    lift (s_authenticate s) ;;;
    _ <- load Gclient client ;;
    lift (s_setup_encryption s) ;;;
    store Gstart (set_start (Some (s_time s))) ;;;
    _ <- load Gclient client ;;
    t <- lift (s_create s) ;;
    store Gtask (set_task (as_task t)) ;;;
    _ <- load Gtask task ;;
    if created_truthy t then ret task_created else ret went_wrong
  else ret (WPlaintext "").

(** Events of a submission that runs to its end. *)
Definition send_trace : list event :=
  [Store Gclient; Load Gclient; Load Gclient; Store Gstart; Load Gclient;
   Store Gtask; Load Gtask].

(** A submission at time 120 that is accepted under task id 4, and one
    whose authentication is refused. *)
Definition accepted : submission :=
  {| s_client := Ok tt; s_authenticate := Ok tt; s_setup_encryption := Ok tt;
     s_time := 120; s_create := Ok (CreatedTask {| th_id := Some 4%Z |}) |}.

Definition refused : submission :=
  {| s_client := Ok tt; s_authenticate := Raise ValueError;
     s_setup_encryption := Ok tt; s_time := 120;
     s_create := Ok (CreatedTask {| th_id := Some 4%Z |}) |}.

Definition unanswered : submission :=
  {| s_client := Ok tt; s_authenticate := Ok tt; s_setup_encryption := Ok tt;
     s_time := 120; s_create := Ok CreatedEmpty |}.

(** ** The stage dropdowns of the layout (lines 73-105) *)

Record dropdown := {
  dd_options : list string;
  dd_placeholder : string;
  dd_id : string
}.

Definition input_tstage (c : cdm) : dropdown :=
  {| dd_options := t_values c; dd_placeholder := "T stage"; dd_id := "input-tstage" |}.

Definition input_nstage (c : cdm) : dropdown :=
  {| dd_options := n_values c; dd_placeholder := "N stage"; dd_id := "input-nstage" |}.

Definition input_mstage (c : cdm) : dropdown :=
  {| dd_options := m_values c; dd_placeholder := "M stage"; dd_id := "input-mstage" |}.

(** A value a dropdown can deliver: nothing, or one of its options. *)
Definition offered (d : dropdown) (v : option string) : Prop :=
  match v with
  | None => True
  | Some x => In x (dd_options d)
  end.

(** ** Labels under numpy's comparison *)

(** No entry of [values] compares equal to [x]. *)
Definition np_absent (values : list string) (x : string) : Prop :=
  forall v, In v values -> np_eqb v x = false.

(** [s] does not end in a NUL character. *)
Definition nul_free (s : string) : Prop := rstrip_nul s = s.

(** The label ['T2\x00'], and a value list that holds it before ['T2']. *)
Definition T2_nul : string := String "T" (String "2" (String Ascii.zero EmptyString)).

Definition nul_values : list string := [T2_nul; "T2"].

(** The component that lines 231-249 build for a profile [p], written
    out: the heading and a line chart of [p] against the days 0, 30,
    ..., 720, with the y axis fixed to the range 0 to 1. *)
Definition survival_chart (p : list Q) : html :=
  Div [H4 "Survival profile for similar patients:";
       Graph {| fig_data :=
                  {| survival_rate := p;
                     survival_days :=
                       [0; 30; 60; 90; 120; 150; 180; 210; 240; 270; 300; 330;
                        360; 390; 420; 450; 480; 510; 540; 570; 600; 630; 660;
                        690; 720]%Z |};
                fig_x := "survival days";
                fig_y := "survival rate";
                fig_range_y := (0%Z, 1%Z) |}].

(** * Properties *)

(** ** Running computations *)

Lemma bind_raise {A B} (m : M A) (k : A -> M B) g e g1 l1 :
  m g = (Raise e, g1, l1) -> bind m k g = (Raise e, g1, l1).
Proof.
  intros Hm. unfold bind. rewrite Hm. reflexivity.
Qed.

(** ** The stage encoder *)

Lemma np_eqb_true v x : np_eqb v x = true <-> rstrip_nul v = rstrip_nul x.
Proof. unfold np_eqb. apply String.eqb_eq. Qed.

Lemma np_eqb_refl x : np_eqb x x = true.
Proof. apply np_eqb_true. reflexivity. Qed.

Lemma np_absent_cons v rest x :
  np_absent (v :: rest) x <-> np_eqb v x = false /\ np_absent rest x.
Proof.
  unfold np_absent. split.
  - intros H. split; [apply H; now left|]. intros w Hw. apply H. now right.
  - intros [Hv Hr] w [<-|Hw]; [exact Hv|apply Hr; exact Hw].
Qed.

Lemma np_absent_or_found values x :
  np_absent values x \/ exists v, In v values /\ np_eqb v x = true.
Proof.
  induction values as [|v rest IH].
  - left. intros w [].
  - destruct (np_eqb v x) eqn:E.
    + right. exists v. split; [now left|exact E].
    + destruct IH as [Ha|(w & Hw & Ew)].
      * left. apply np_absent_cons. auto.
      * right. exists w. split; [now right|exact Ew].
Qed.

Lemma where_eq_absent values x k :
  np_absent values x -> where_eq values x k = [].
Proof.
  revert k. induction values as [|v rest IH]; intros k Hn; simpl.
  - reflexivity.
  - apply np_absent_cons in Hn. destruct Hn as [Hv Hr]. rewrite Hv.
    apply IH. exact Hr.
Qed.

Lemma where_eq_first values x k :
  (exists v, In v values /\ np_eqb v x = true) ->
  exists i v, nth_error (where_eq values x k) 0 = Some (k + i)%nat /\
              nth_error values i = Some v /\ np_eqb v x = true /\
              forall j w, (j < i)%nat -> nth_error values j = Some w ->
                          np_eqb w x = false.
Proof.
  revert k. induction values as [|v rest IH]; intros k (u & Hin & Hu);
    cbn [where_eq].
  - destruct Hin.
  - destruct (np_eqb v x) eqn:E.
    + exists 0%nat, v. simpl. rewrite Nat.add_0_r.
      split; [reflexivity|]. split; [reflexivity|]. split; [exact E|].
      intros j w Hj. lia.
    + destruct Hin as [->|Hin]; [congruence|].
      destruct (IH (S k) (ex_intro _ u (conj Hin Hu))) as (i & w & Hi & Hw & Ew & Hmin).
      exists (S i), w. rewrite Hi. cbn [nth_error].
      split; [f_equal; lia|]. split; [exact Hw|]. split; [exact Ew|].
      intros [|j] w' Hj Hw'; simpl in Hw'.
      * congruence.
      * apply (Hmin j); [lia|exact Hw'].
Qed.

Lemma nvalues_nth values i :
  (i < List.length values)%nat -> nth_error (nvalues values) i = Some i.
Proof.
  intros Hi. unfold nvalues.
  rewrite (nth_error_nth' _ 0%nat) by (rewrite length_seq; exact Hi).
  rewrite seq_nth by exact Hi. reflexivity.
Qed.

Lemma encode_found values x :
  (exists v, In v values /\ np_eqb v x = true) ->
  exists i v, encode values x = Ok i /\ nth_error values i = Some v /\
              np_eqb v x = true /\
              forall j w, (j < i)%nat -> nth_error values j = Some w ->
                          np_eqb w x = false.
Proof.
  intros Hex. destruct (where_eq_first values x 0 Hex) as (i & v & Hi & Hv & Ev & Hmin).
  exists i, v. unfold encode, getitem. rewrite Hi. simpl.
  rewrite nvalues_nth.
  - auto.
  - apply nth_error_Some. congruence.
Qed.

Lemma encode_present values x :
  In x values ->
  exists i, encode values x = Ok i /\ (i < List.length values)%nat.
Proof.
  intros Hin.
  destruct (encode_found values x (ex_intro _ x (conj Hin (np_eqb_refl x))))
    as (i & v & Hi & Hv & _).
  exists i. split; [exact Hi|]. apply nth_error_Some. congruence.
Qed.

Lemma encode_absent values x :
  np_absent values x -> encode values x = Raise IndexError.
Proof.
  intros Hn. unfold encode. rewrite where_eq_absent by exact Hn. reflexivity.
Qed.

Lemma nul_free_eq v x :
  nul_free v -> nul_free x -> rstrip_nul v = rstrip_nul x -> v = x.
Proof. unfold nul_free. congruence. Qed.

Lemma roundtrip_axis values x :
  In x values ->
  exists i v, encode values x = Ok i /\ decode values i = Some v /\
              rstrip_nul v = rstrip_nul x /\
              (Forall nul_free values -> v = x).
Proof.
  intros Hin.
  destruct (encode_found values x (ex_intro _ x (conj Hin (np_eqb_refl x))))
    as (i & v & Hi & Hv & Ev & _).
  apply np_eqb_true in Ev. exists i, v. unfold decode.
  split; [exact Hi|]. split; [exact Hv|]. split; [exact Ev|].
  intros Hall. rewrite Forall_forall in Hall.
  apply nul_free_eq; [|apply Hall; exact Hin|exact Ev].
  apply Hall. apply (nth_error_In _ _ Hv).
Qed.

(** C2, as the code has it: for labels present in their axis's value
    list, each label encodes to an ordinal index, and decoding that
    index gives a label equal to the original up to trailing NUL
    characters; it gives the original label itself when no entry of the
    value list ends in a NUL character. *)
Theorem encode_decode_upto_nul (c : cdm) (t n m : string) :
  In t (t_values c) -> In n (n_values c) -> In m (m_values c) ->
  (exists ti vt,
     encode (t_values c) t = Ok ti /\ decode (t_values c) ti = Some vt /\
     rstrip_nul vt = rstrip_nul t /\ (Forall nul_free (t_values c) -> vt = t)) /\
  (exists ni vn,
     encode (n_values c) n = Ok ni /\ decode (n_values c) ni = Some vn /\
     rstrip_nul vn = rstrip_nul n /\ (Forall nul_free (n_values c) -> vn = n)) /\
  (exists mi vm,
     encode (m_values c) m = Ok mi /\ decode (m_values c) mi = Some vm /\
     rstrip_nul vm = rstrip_nul m /\ (Forall nul_free (m_values c) -> vm = m)).
Proof.
  intros Ht Hn Hm.
  split; [apply roundtrip_axis; exact Ht|].
  split; [apply roundtrip_axis; exact Hn|apply roundtrip_axis; exact Hm].
Qed.

Lemma encode_decode_upto_nul_witness :
  (exists ti vt,
     encode (t_values scheme) "T2" = Ok ti /\ decode (t_values scheme) ti = Some vt /\
     rstrip_nul vt = rstrip_nul "T2" /\
     (Forall nul_free (t_values scheme) -> vt = "T2")) /\
  (exists ni vn,
     encode (n_values scheme) "N0" = Ok ni /\ decode (n_values scheme) ni = Some vn /\
     rstrip_nul vn = rstrip_nul "N0" /\
     (Forall nul_free (n_values scheme) -> vn = "N0")) /\
  (exists mi vm,
     encode (m_values scheme) "M1" = Ok mi /\ decode (m_values scheme) mi = Some vm /\
     rstrip_nul vm = rstrip_nul "M1" /\
     (Forall nul_free (m_values scheme) -> vm = "M1")).
Proof.
  apply (encode_decode_upto_nul scheme "T2" "N0" "M1"); simpl; auto.
Defined.

(** C2 as written fails: in a value list that holds ['T2\x00'] before
    ['T2'], the present label ['T2'] encodes to 0, the position of
    ['T2\x00'], and decoding 0 gives ['T2\x00'], not ['T2']. *)
Lemma encode_decode_nul_entry :
  In "T2" nul_values /\
  encode nul_values "T2" = Ok 0%nat /\
  decode nul_values 0 = Some T2_nul /\
  T2_nul <> "T2".
Proof.
  split; [right; left; reflexivity|].
  split; [reflexivity|]. split; [reflexivity|]. discriminate.
Qed.

(** ** Distances and the minimum scan *)

Lemma Dist_ltb_true a b : Dist_ltb a b = true <-> dist_sq a < dist_sq b.
Proof.
  unfold Dist_ltb. rewrite negb_true_iff. split; intros H.
  - apply Qnot_le_lt. intros Hle. apply Qle_bool_iff in Hle. congruence.
  - destruct (Qle_bool (dist_sq b) (dist_sq a)) eqn:E; [|reflexivity].
    apply Qle_bool_iff in E. exfalso. exact (Qlt_not_le _ _ H E).
Qed.

Lemma Dist_ltb_false a b : Dist_ltb a b = false <-> dist_sq b <= dist_sq a.
Proof.
  unfold Dist_ltb. rewrite negb_false_iff. apply Qle_bool_iff.
Qed.

Lemma sqr_nonneg x : 0 <= sqr x.
Proof.
  unfold sqr. destruct (Qlt_le_dec x 0) as [Hneg|Hpos].
  - setoid_replace (x * x) with ((- x) * (- x)) by ring.
    apply Qmult_le_0_compat; lra.
  - apply Qmult_le_0_compat; exact Hpos.
Qed.

Lemma euclidean_nonneg xi xj : 0 <= dist_sq (euclidean xi xj).
Proof.
  destruct xi as [[a1 a2] a3], xj as [[b1 b2] b3]. simpl.
  pose proof (sqr_nonneg (a1 - b1)). pose proof (sqr_nonneg (a2 - b2)).
  pose proof (sqr_nonneg (a3 - b3)). lra.
Qed.

Lemma Dist_val_le a b :
  0 <= dist_sq a -> dist_sq a <= dist_sq b -> (Dist_val a <= Dist_val b)%R.
Proof.
  intros H0 Hle. unfold Dist_val. apply sqrt_le_1_alt. now apply Qle_Rle.
Qed.

Lemma Dist_val_lt a b :
  0 <= dist_sq a -> dist_sq a < dist_sq b -> (Dist_val a < Dist_val b)%R.
Proof.
  intros H0 Hlt. unfold Dist_val. apply sqrt_lt_1_alt. split.
  - replace 0%R with (Q2R 0) by (unfold Q2R; simpl; lra). now apply Qle_Rle.
  - now apply Qlt_Rlt.
Qed.

(** The scan keeps the position of the least value seen so far, and no
    earlier position holds a value as small. *)
Lemma argmin_from_spec l :
  forall pre best bv,
    nth_error pre best = Some bv ->
    (forall j d, nth_error pre j = Some d -> dist_sq bv <= dist_sq d) ->
    (forall j d, (j < best)%nat -> nth_error pre j = Some d ->
                 dist_sq bv < dist_sq d) ->
    exists rv,
      nth_error (pre ++ l) (argmin_from best bv (List.length pre) l) = Some rv /\
      (forall j d, nth_error (pre ++ l) j = Some d -> dist_sq rv <= dist_sq d) /\
      (forall j d, (j < argmin_from best bv (List.length pre) l)%nat ->
                   nth_error (pre ++ l) j = Some d -> dist_sq rv < dist_sq d).
Proof.
  induction l as [|d rest IH]; intros pre best bv Hb Hmin Hfirst.
  - exists bv. rewrite app_nil_r. simpl. auto.
  - assert (Hlen : List.length (pre ++ [d]) = S (List.length pre))
      by (rewrite length_app; simpl; lia).
    assert (Hsplit : pre ++ d :: rest = (pre ++ [d]) ++ rest)
      by (rewrite <- app_assoc; reflexivity).
    assert (Hlook : forall j e, nth_error (pre ++ [d]) j = Some e ->
               nth_error pre j = Some e \/ (j = List.length pre /\ e = d)).
    { intros j e Hj. destruct (Nat.lt_ge_cases j (List.length pre)) as [Hlt|Hge].
      - left. rewrite nth_error_app1 in Hj by exact Hlt. exact Hj.
      - right. rewrite nth_error_app2 in Hj by exact Hge.
        destruct (j - List.length pre)%nat as [|k] eqn:Ek; simpl in Hj.
        + split; [lia|congruence].
        + destruct k; discriminate. }
    simpl. rewrite Hsplit, <- Hlen.
    destruct (Dist_ltb d bv) eqn:E.
    + apply Dist_ltb_true in E. apply IH.
      * rewrite nth_error_app2 by lia. rewrite Nat.sub_diag. reflexivity.
      * intros j e Hj. destruct (Hlook j e Hj) as [Hp|[_ ->]].
        -- specialize (Hmin j e Hp). lra.
        -- lra.
      * intros j e Hlt Hj. destruct (Hlook j e Hj) as [Hp|[-> _]].
        -- specialize (Hmin j e Hp). lra.
        -- lia.
    + apply Dist_ltb_false in E. apply IH.
      * rewrite nth_error_app1; [exact Hb|]. apply nth_error_Some. congruence.
      * intros j e Hj. destruct (Hlook j e Hj) as [Hp|[_ ->]].
        -- exact (Hmin j e Hp).
        -- exact E.
      * intros j e Hlt Hj. destruct (Hlook j e Hj) as [Hp|[-> _]].
        -- exact (Hfirst j e Hlt Hp).
        -- exfalso. assert (best < List.length pre)%nat
             by (apply nth_error_Some; congruence). lia.
Qed.

Lemma argmin_spec l :
  l <> [] ->
  exists i v,
    argmin l = Ok i /\ nth_error l i = Some v /\
    (forall j d, nth_error l j = Some d -> dist_sq v <= dist_sq d) /\
    (forall j d, (j < i)%nat -> nth_error l j = Some d -> dist_sq v < dist_sq d).
Proof.
  destruct l as [|d rest]; [congruence|]. intros _.
  destruct (argmin_from_spec rest [d] 0%nat d) as (rv & Hr & Hmin & Hfirst).
  - reflexivity.
  - intros [|[|j]] e Hj; simpl in Hj; try discriminate.
    injection Hj as <-. lra.
  - intros j e Hj. lia.
  - exists (argmin_from 0 d 1 rest), rv. simpl in *. auto.
Qed.

(** ** Nearest-centroid matching *)

Lemma distances_of_run xi cs g :
  distances_of xi cs g =
  (Ok (map (euclidean xi) cs), g,
   repeat (Call DistanceEuclidean) (List.length cs)).
Proof.
  induction cs as [|xj rest IH]; simpl.
  - reflexivity.
  - unfold bind, call. rewrite IH. unfold ret. simpl.
    rewrite app_nil_r. reflexivity.
Qed.

Lemma closest_cluster_run xi g cs :
  centroids g = Some cs ->
  closest_cluster xi g =
  (argmin (map (euclidean xi) cs), g, matching_trace (List.length cs)).
Proof.
  intros Hc. unfold closest_cluster, bind, load. rewrite Hc.
  rewrite distances_of_run. reflexivity.
Qed.

Lemma closest_cluster_unset xi g :
  centroids g = None ->
  closest_cluster xi g = (Raise TypeError, g, [Load Gcentroids]).
Proof.
  intros Hc. unfold closest_cluster, bind, load. rewrite Hc. reflexivity.
Qed.

Lemma closest_cluster_some xi g cs :
  centroids g = Some cs -> cs <> [] ->
  exists idx,
    closest_cluster xi g = (Ok idx, g, matching_trace (List.length cs)) /\
    argmin (map (euclidean xi) cs) = Ok idx /\
    (idx < List.length cs)%nat.
Proof.
  intros Hc Hne.
  destruct (argmin_spec (map (euclidean xi) cs)) as (i & v & Ha & Hv & _).
  - destruct cs; [congruence|discriminate].
  - exists i. rewrite (closest_cluster_run xi g cs Hc), Ha.
    split; [reflexivity|]. split; [reflexivity|].
    rewrite <- (length_map (euclidean xi)). apply nth_error_Some. congruence.
Qed.

Lemma euclidean_compat a b c d :
  point_eq a b -> point_eq c d ->
  dist_sq (euclidean a c) == dist_sq (euclidean b d).
Proof.
  destruct a as [[a1 a2] a3], b as [[b1 b2] b3].
  destruct c as [[c1 c2] c3], d as [[d1 d2] d3].
  intros (H1 & H2 & H3) (K1 & K2 & K3). simpl. unfold sqr.
  rewrite H1, H2, H3, K1, K2, K3. reflexivity.
Qed.

Lemma Dist_ltb_compat a b c d :
  dist_sq a == dist_sq b -> dist_sq c == dist_sq d ->
  Dist_ltb a c = Dist_ltb b d.
Proof.
  intros H K. unfold Dist_ltb. rewrite H, K. reflexivity.
Qed.

Lemma argmin_from_compat l1 l2 :
  Forall2 (fun a b => dist_sq a == dist_sq b) l1 l2 ->
  forall best v1 v2 i, dist_sq v1 == dist_sq v2 ->
    argmin_from best v1 i l1 = argmin_from best v2 i l2.
Proof.
  induction 1 as [|a b l1 l2 Hab Hl IH]; intros best v1 v2 i Hv; simpl.
  - reflexivity.
  - rewrite (Dist_ltb_compat a b v1 v2 Hab Hv).
    destruct (Dist_ltb b v2); apply IH; assumption.
Qed.

Lemma argmin_compat l1 l2 :
  Forall2 (fun a b => dist_sq a == dist_sq b) l1 l2 -> argmin l1 = argmin l2.
Proof.
  intros H. destruct H as [|a b l1 l2 Hab Hl]; simpl.
  - reflexivity.
  - f_equal. apply argmin_from_compat; assumption.
Qed.

(** C8: the matched cluster index is a function of the centroid set and
    the query alone: two matching steps, run in any two stores that hold
    the same centroid set, on the same query, have the same outcome. *)
Theorem closest_cluster_deterministic (g1 g2 : globals) (x1 x2 : point) :
  same_centroids (centroids g1) (centroids g2) -> point_eq x1 x2 ->
  outcome (closest_cluster x1 g1) = outcome (closest_cluster x2 g2).
Proof.
  intros Hc Hx. unfold same_centroids in Hc.
  destruct (centroids g1) as [cs1|] eqn:E1, (centroids g2) as [cs2|] eqn:E2;
    try contradiction.
  - rewrite (closest_cluster_run x1 g1 cs1 E1), (closest_cluster_run x2 g2 cs2 E2).
    unfold outcome. simpl. apply argmin_compat. clear E1 E2.
    induction Hc as [|c1 c2 r1 r2 Hc12 Hr IH]; simpl; constructor.
    + apply euclidean_compat; assumption.
    + exact IH.
  - rewrite (closest_cluster_unset x1 g1 E1), (closest_cluster_unset x2 g2 E2).
    reflexivity.
Qed.

Lemma closest_cluster_deterministic_witness :
  outcome (closest_cluster (1, 0, 0)
             (set_centroids (Some [(1 # 2, 0, 0); (1, 1, 1)]) initial)) =
  outcome (closest_cluster (2 # 2, 0, 0)
             (set_profiles (Some [[1]; [0]])
                (set_centroids (Some [(2 # 4, 0, 0); (1, 1, 1)]) initial))).
Proof.
  apply closest_cluster_deterministic.
  - simpl. repeat constructor; reflexivity.
  - simpl. repeat split; reflexivity.
Defined.

(** ** The stage-matching callback *)

Lemma truthy_selected t : t <> "" -> truthy (Some t) = true.
Proof.
  intros Ht. simpl. destruct (String.eqb_spec t ""); [contradiction|reflexivity].
Qed.

Lemma encode_stage_run c t n m g ti ni mi :
  encode (t_values c) t = Ok ti ->
  encode (n_values c) n = Ok ni ->
  encode (m_values c) m = Ok mi ->
  encode_stage c t n m g = (Ok (of_nat ti, of_nat ni, of_nat mi), g, encode_trace).
Proof.
  intros Et En Em. unfold encode_stage, bind, call. rewrite Et, En, Em.
  reflexivity.
Qed.

Lemma encode_stage_valid c t n m g :
  In t (t_values c) -> In n (n_values c) -> In m (m_values c) ->
  exists xi, encode_stage c t n m g = (Ok xi, g, encode_trace).
Proof.
  intros Ht Hn Hm.
  destruct (encode_present _ _ Ht) as (ti & Et & _).
  destruct (encode_present _ _ Hn) as (ni & En & _).
  destruct (encode_present _ _ Hm) as (mi & Em & _).
  eexists. apply (encode_stage_run c t n m g ti ni mi); assumption.
Qed.

Lemma encode_result values x :
  (exists i, encode values x = Ok i) \/ encode values x = Raise IndexError.
Proof.
  destruct (np_absent_or_found values x) as [Hn|Hex].
  - right. apply encode_absent. exact Hn.
  - left. destruct (encode_found values x Hex) as (i & v & Hi & _). eauto.
Qed.

Lemma encode_stage_invalid c t n m g :
  np_absent (t_values c) t \/ np_absent (n_values c) n \/
  np_absent (m_values c) m ->
  exists l, encode_stage c t n m g = (Raise IndexError, g, l) /\
            Forall (fun e => e = Call NpWhere) l.
Proof.
  intros Hbad. unfold encode_stage, bind, call.
  destruct (encode_result (t_values c) t) as [[ti Et]|Et]; rewrite Et.
  2: { eexists. split; [reflexivity|]. repeat constructor. }
  destruct (encode_result (n_values c) n) as [[ni En]|En]; rewrite En.
  2: { eexists. split; [reflexivity|]. repeat constructor. }
  destruct (encode_result (m_values c) m) as [[mi Em]|Em]; rewrite Em.
  2: { eexists. split; [reflexivity|]. repeat constructor. }
  exfalso. destruct Hbad as [H|[H|H]].
  - rewrite (encode_absent _ _ H) in Et. discriminate.
  - rewrite (encode_absent _ _ H) in En. discriminate.
  - rewrite (encode_absent _ _ H) in Em. discriminate.
Qed.

Lemma profile_frame_run idx g ps :
  profiles g = Some ps ->
  profile_frame idx g =
  match nth_error ps idx with
  | Some p => (mkDataFrame p (py_range 0 730 30), g,
               [Load Gprofiles; Call PdDataFrame])
  | None => (Raise IndexError, g, [Load Gprofiles])
  end.
Proof.
  intros Hp. unfold profile_frame, bind, load, getitem, call. rewrite Hp.
  destruct (nth_error ps idx); reflexivity.
Qed.

Lemma profile_frame_unset idx g :
  profiles g = None ->
  profile_frame idx g = (Raise TypeError, g, [Load Gprofiles]).
Proof.
  intros Hp. unfold profile_frame, bind, load. rewrite Hp. reflexivity.
Qed.

(** The callback once the three labels are encoded to [xi]. *)
Lemma survival_profile_encoded c t n m g xi :
  t <> "" -> n <> "" -> m <> "" ->
  encode_stage c t n m g = (Ok xi, g, encode_trace) ->
  survival_profile c (Some t) (Some n) (Some m) g =
  match closest_cluster xi g with
  | (Ok idx, g1, l1) =>
      match profile_frame idx g1 with
      | (Ok dfp, g2, l2) => (Ok (page dfp), g2, encode_trace ++ l1 ++ l2 ++ [])
      | (Raise e, g2, l2) => (Raise e, g2, encode_trace ++ l1 ++ l2)
      end
  | (Raise e, g1, l1) => (Raise e, g1, encode_trace ++ l1)
  end.
Proof.
  intros Ht Hn Hm He. unfold survival_profile.
  rewrite !truthy_selected by assumption. cbn [andb label].
  unfold bind at 1. rewrite He.
  unfold bind at 1.
  destruct (closest_cluster xi g) as [[[idx|e] g1] l1]; [|reflexivity].
  unfold bind at 1.
  destruct (profile_frame idx g1) as [[[dfp|e] g2] l2]; reflexivity.
Qed.

(** C10: when one of the three inputs is [None] or empty the callback
    returns the empty text; it reads neither [centroids] nor [profiles],
    calls no routine and leaves the store as it was, whatever the store
    holds. *)
Theorem survival_profile_unselected (c : cdm) (t n m : option string) (g : globals) :
  truthy t && truthy n && truthy m = false ->
  survival_profile c t n m g = (Ok (Plaintext ""), g, []).
Proof.
  intros H. unfold survival_profile. rewrite H. reflexivity.
Qed.

Lemma survival_profile_unselected_witness :
  survival_profile scheme (Some "T1") None (Some "") initial =
  (Ok (Plaintext ""), initial, []).
Proof.
  apply survival_profile_unselected. reflexivity.
Defined.

(** C4, as the code has it: with the three inputs selected and one label
    that compares equal to no entry of its value list (numpy's
    comparison, which ignores trailing NUL characters) the callback
    raises [IndexError] from the lookup; the store is unchanged and the
    trace holds lookups only, so no centroid is read and no distance or
    minimum is computed. *)
Theorem survival_profile_invalid_label (c : cdm) (t n m : string) (g : globals) :
  t <> "" -> n <> "" -> m <> "" ->
  np_absent (t_values c) t \/ np_absent (n_values c) n \/
  np_absent (m_values c) m ->
  outcome (survival_profile c (Some t) (Some n) (Some m) g) = Raise IndexError /\
  final (survival_profile c (Some t) (Some n) (Some m) g) = g /\
  Forall (fun e => e = Call NpWhere)
         (trace (survival_profile c (Some t) (Some n) (Some m) g)).
Proof.
  intros Ht Hn Hm Hbad.
  destruct (encode_stage_invalid c t n m g Hbad) as (l & He & Hl).
  unfold survival_profile. rewrite !truthy_selected by assumption.
  cbn [andb label]. rewrite (bind_raise _ _ _ _ _ _ He).
  unfold outcome, final, trace. simpl. auto.
Qed.

Lemma survival_profile_invalid_label_witness :
  outcome (survival_profile scheme (Some "T1") (Some "N7") (Some "M0") initial)
    = Raise IndexError /\
  final (survival_profile scheme (Some "T1") (Some "N7") (Some "M0") initial)
    = initial /\
  Forall (fun e => e = Call NpWhere)
         (trace (survival_profile scheme (Some "T1") (Some "N7") (Some "M0") initial)).
Proof.
  apply survival_profile_invalid_label; try discriminate.
  right. left. intros v [<-|[<-|[]]]; reflexivity.
Defined.

(** C4 as written fails: label ['T3'] against the scheme [['T1','T2']]
    ends in [IndexError], not in [InvalidStageError]. *)
Lemma survival_profile_invalid_label_not_typed :
  ~ In "T3" (t_values scheme) /\
  outcome (survival_profile scheme (Some "T3") (Some "N0") (Some "M0") initial)
    <> Raise InvalidStageError.
Proof.
  split.
  - simpl. intros [H|[H|[]]]; discriminate.
  - vm_compute. discriminate.
Qed.

(** C7, as the code has it: with the three inputs selected and valid and
    [centroids] still [None], the callback encodes the labels, loads
    [centroids] and raises [TypeError] on iterating over it. *)
Theorem survival_profile_before_retrieval (c : cdm) (t n m : string) (g : globals) :
  t <> "" -> n <> "" -> m <> "" ->
  In t (t_values c) -> In n (n_values c) -> In m (m_values c) ->
  centroids g = None ->
  survival_profile c (Some t) (Some n) (Some m) g =
  (Raise TypeError, g, encode_trace ++ [Load Gcentroids]).
Proof.
  intros Ht Hn Hm It In_ Im Hc.
  destruct (encode_stage_valid c t n m g It In_ Im) as (xi & He).
  rewrite (survival_profile_encoded c t n m g xi Ht Hn Hm He).
  rewrite (closest_cluster_unset xi g Hc). reflexivity.
Qed.

Lemma survival_profile_before_retrieval_witness :
  survival_profile scheme (Some "T2") (Some "N0") (Some "M1") initial =
  (Raise TypeError, initial, encode_trace ++ [Load Gcentroids]).
Proof.
  apply survival_profile_before_retrieval; try discriminate; simpl; auto.
Defined.

(** C7 as written fails: in the initial store a valid query ends in
    [TypeError]; an unselected input ends in no error at all. *)
Lemma survival_profile_before_retrieval_not_typed :
  centroids initial = None /\
  outcome (survival_profile scheme (Some "T1") (Some "N0") (Some "M0") initial)
    <> Raise NoResultsAvailableError /\
  outcome (survival_profile scheme None (Some "N0") (Some "M0") initial)
    <> Raise NoResultsAvailableError.
Proof.
  split; [reflexivity|]. split; vm_compute; discriminate.
Qed.

(** ** The survival-profile frame *)

Lemma survival_days_grid :
  py_range 0 730 30 = map (fun k => (30 * Z.of_nat k)%Z) (seq 0 25).
Proof. reflexivity. Qed.

Lemma nth_error_combine_some {A B} (l1 : list A) (l2 : list B) k a b :
  nth_error l1 k = Some a -> nth_error l2 k = Some b ->
  nth_error (combine l1 l2) k = Some (a, b).
Proof.
  revert l2 k. induction l1 as [|x l1 IH]; intros [|y l2] [|k] H1 H2;
    simpl in *; try discriminate.
  - congruence.
  - apply IH; assumption.
Qed.

Lemma survival_days_nth k :
  (k < 25)%nat -> nth_error (py_range 0 730 30) k = Some (30 * Z.of_nat k)%Z.
Proof.
  intros Hk. rewrite survival_days_grid, nth_error_map.
  rewrite (nth_error_nth' _ 0%nat) by (rewrite length_seq; exact Hk).
  rewrite seq_nth by exact Hk. reflexivity.
Qed.

(** C3, as the code has it: the time column is the fixed list
    [range(0, 730, 30)] of 25 days.  A matched profile of exactly 25
    values yields 25 (time, probability) rows, row [k] at time [30 * k];
    a profile of any other length is refused with [ValueError]. *)
Theorem profile_frame_series (g : globals) (ps : list (list Q)) (idx : nat) (p : list Q) :
  profiles g = Some ps -> nth_error ps idx = Some p ->
  (List.length p = 25%nat ->
   exists dfp,
     outcome (profile_frame idx g) = Ok dfp /\
     List.length (rows dfp) = List.length p /\
     forall k v, nth_error p k = Some v ->
                 nth_error (rows dfp) k = Some ((30 * Z.of_nat k)%Z, v)) /\
  (List.length p <> 25%nat ->
   outcome (profile_frame idx g) = Raise ValueError).
Proof.
  intros Hp Hi. rewrite (profile_frame_run idx g ps Hp), Hi.
  unfold outcome, mkDataFrame. cbn [fst].
  assert (Hd : List.length (py_range 0 730 30) = 25%nat) by reflexivity.
  rewrite Hd. split; intros Hlen.
  - rewrite Hlen. cbn [Nat.eqb]. eexists. split; [reflexivity|].
    unfold rows. cbn [survival_days survival_rate]. split.
    + rewrite length_combine, Hd, Hlen. reflexivity.
    + intros k v Hk. apply nth_error_combine_some; [|exact Hk].
      apply survival_days_nth. rewrite <- Hlen. apply nth_error_Some. congruence.
  - destruct (Nat.eqb_spec (List.length p) 25); [contradiction|reflexivity].
Qed.

Lemma profile_frame_series_witness :
  exists dfp,
    outcome (profile_frame 0 (set_profiles (Some [flat_profile]) initial)) = Ok dfp /\
    List.length (rows dfp) = List.length flat_profile /\
    forall k v, nth_error flat_profile k = Some v ->
                nth_error (rows dfp) k = Some ((30 * Z.of_nat k)%Z, v).
Proof.
  apply (proj1 (profile_frame_series (set_profiles (Some [flat_profile]) initial)
                  [flat_profile] 0 flat_profile eq_refl eq_refl)).
  reflexivity.
Defined.

(** C3 as written fails: a matched profile of two values gives no
    two-row series; the frame is refused. *)
Lemma profile_frame_short_profile :
  outcome (profile_frame 0 (set_profiles (Some [[1; 1 # 2]]) initial))
    = Raise ValueError /\
  ~ exists dfp,
      outcome (profile_frame 0 (set_profiles (Some [[1; 1 # 2]]) initial)) = Ok dfp /\
      List.length (rows dfp) = 2%nat.
Proof.
  split.
  - reflexivity.
  - intros (dfp & H & _). vm_compute in H. discriminate.
Qed.

(** ** Profiles against centroids *)

(** C5, as the code has it: the two lengths are never compared.  With
    valid labels, a non-empty centroid set and a profile list, matching
    runs to its end first; only then is [profiles] loaded and indexed by
    the matched position.  A position beyond the profile list raises
    [IndexError]; a position within it is used whatever the two lengths
    are. *)
Theorem survival_profile_indexes_after_matching
    (c : cdm) (t n m : string) (g : globals)
    (cs : list point) (ps : list (list Q)) :
  t <> "" -> n <> "" -> m <> "" ->
  In t (t_values c) -> In n (n_values c) -> In m (m_values c) ->
  centroids g = Some cs -> cs <> [] -> profiles g = Some ps ->
  exists xi idx rest,
    outcome (encode_stage c t n m g) = Ok xi /\
    outcome (closest_cluster xi g) = Ok idx /\
    (idx < List.length cs)%nat /\
    trace (survival_profile c (Some t) (Some n) (Some m) g) =
      encode_trace ++ matching_trace (List.length cs) ++ Load Gprofiles :: rest /\
    (List.length ps <= idx ->
     outcome (survival_profile c (Some t) (Some n) (Some m) g) = Raise IndexError)%nat /\
    (forall p, nth_error ps idx = Some p ->
     outcome (survival_profile c (Some t) (Some n) (Some m) g) = rendered p).
Proof.
  intros Ht Hn Hm It In_ Im Hc Hne Hp.
  destruct (encode_stage_valid c t n m g It In_ Im) as (xi & He).
  destruct (closest_cluster_some xi g cs Hc Hne) as (idx & Hrun & _ & Hidx).
  pose proof (survival_profile_encoded c t n m g xi Ht Hn Hm He) as Hsp.
  rewrite Hrun, (profile_frame_run idx g ps Hp) in Hsp.
  destruct (nth_error ps idx) as [p|] eqn:Hi.
  - exists xi, idx, [Call PdDataFrame]. rewrite Hsp, He, Hrun. unfold rendered.
    destruct (mkDataFrame p (py_range 0 730 30)) as [dfp|e] eqn:Hf;
      unfold outcome, trace; cbn [fst snd]; rewrite ?app_nil_r;
      do 2 (split; [reflexivity|]); (split; [exact Hidx|]);
      (split; [reflexivity|]); split.
    + intros Hle. apply nth_error_None in Hle. congruence.
    + intros q Hq. assert (q = p) by congruence. subst q. rewrite Hf. reflexivity.
    + intros Hle. apply nth_error_None in Hle. congruence.
    + intros q Hq. assert (q = p) by congruence. subst q. rewrite Hf. reflexivity.
  - exists xi, idx, []. rewrite Hsp, He, Hrun. unfold outcome, trace. cbn [fst snd].
    do 2 (split; [reflexivity|]). split; [exact Hidx|].
    split; [reflexivity|]. split.
    + intros _. reflexivity.
    + intros q Hq. congruence.
Qed.

Lemma survival_profile_indexes_after_matching_witness :
  exists xi idx rest,
    outcome (encode_stage scheme "T2" "N1" "M1" one_profile) = Ok xi /\
    outcome (closest_cluster xi one_profile) = Ok idx /\
    (idx < List.length two_centroids)%nat /\
    trace (survival_profile scheme (Some "T2") (Some "N1") (Some "M1") one_profile) =
      encode_trace ++ matching_trace (List.length two_centroids)
        ++ Load Gprofiles :: rest /\
    (List.length [flat_profile] <= idx ->
     outcome (survival_profile scheme (Some "T2") (Some "N1") (Some "M1") one_profile)
       = Raise IndexError)%nat /\
    (forall p, nth_error [flat_profile] idx = Some p ->
     outcome (survival_profile scheme (Some "T2") (Some "N1") (Some "M1") one_profile)
       = rendered p).
Proof.
  apply (survival_profile_indexes_after_matching scheme "T2" "N1" "M1" one_profile
           two_centroids [flat_profile]);
    try discriminate; try reflexivity; simpl; auto.
Defined.

(** C5 as written fails: with two centroids and one profile the callback
    raises no [MissingResultError].  A query matched to cluster 0 is
    answered with a page; a query matched to cluster 1 computes the
    minimum and then fails with [IndexError] on [profiles[1]]. *)
Lemma survival_profile_length_unchecked :
  centroids one_profile = Some two_centroids /\
  profiles one_profile = Some [flat_profile] /\
  List.length [flat_profile] <> List.length two_centroids /\
  outcome (survival_profile scheme (Some "T1") (Some "N0") (Some "M0") one_profile)
    = rendered flat_profile /\
  (exists h, rendered flat_profile = Ok h) /\
  outcome (survival_profile scheme (Some "T2") (Some "N1") (Some "M1") one_profile)
    = Raise IndexError /\
  In (Call NpArgmin)
     (trace (survival_profile scheme (Some "T2") (Some "N1") (Some "M1") one_profile)).
Proof.
  split; [reflexivity|]. split; [reflexivity|]. split; [discriminate|].
  split; [reflexivity|]. split; [eexists; reflexivity|].
  split; [reflexivity|]. vm_compute. auto 10.
Qed.

(** ** The two-cluster scenario *)





(** ** The retrieval callback *)

(** C6: a retrieval whose task handle reports [complete = False], made
    while [centroids] and [profiles] are still unset, returns the
    "still waiting" message without raising; no variable is stored and
    the store, with both still unset, is as before. *)
Theorem retrieval_not_ready
    (r : remote) (n_clicks : Z) (g : globals)
    (h : task_handle) (id : Z) (ti : task_info) :
  (0 < n_clicks)%Z ->
  client g = Some tt -> task g = Some h -> th_id h = Some id ->
  task_get r id = Ok ti -> ti_complete ti = Some false ->
  centroids g = None -> profiles g = None ->
  get_similarity_analysis_results r n_clicks g =
    (Ok still_waiting, g,
     [Load Gclient; Load Gtask; Call ClientTaskGet; Load Gcentroids]) /\
  centroids (final (get_similarity_analysis_results r n_clicks g)) = None /\
  profiles (final (get_similarity_analysis_results r n_clicks g)) = None.
Proof.
  intros Hn Hcl Htk Hid Hget Hco Hc Hp.
  assert (Hrun : get_similarity_analysis_results r n_clicks g =
    (Ok still_waiting, g,
     [Load Gclient; Load Gtask; Call ClientTaskGet; Load Gcentroids])).
  { unfold get_similarity_analysis_results.
    apply Z.ltb_lt in Hn. rewrite Hn.
    unfold bind at 1. unfold load at 1. rewrite Hcl.
    unfold bind at 1. unfold load at 1. rewrite Htk.
    unfold bind at 1. unfold lift at 1. rewrite Hid. cbn [getkey].
    unfold bind at 1. unfold call at 1. rewrite Hget.
    unfold is_complete. rewrite Hco.
    unfold bind at 1. unfold ret at 1.
    unfold report, bind, load. rewrite Hc. reflexivity. }
  rewrite Hrun. unfold final. cbn [fst snd]. auto.
Qed.

Lemma retrieval_not_ready_witness :
  get_similarity_analysis_results idle_remote 1 submitted =
    (Ok still_waiting, submitted,
     [Load Gclient; Load Gtask; Call ClientTaskGet; Load Gcentroids]) /\
  centroids (final (get_similarity_analysis_results idle_remote 1 submitted)) = None /\
  profiles (final (get_similarity_analysis_results idle_remote 1 submitted)) = None.
Proof.
  apply (retrieval_not_ready idle_remote 1 submitted
           {| th_id := Some 3%Z |} 3 {| ti_complete := Some false; ti_id := Some 3%Z |});
    reflexivity.
Defined.

(** * Further properties of the code *)

(** ** The label lookup (lines 216-223) *)

Lemma encode_ok_first values x i :
  encode values x = Ok i ->
  exists v, nth_error values i = Some v /\ rstrip_nul v = rstrip_nul x /\
            forall j w, (j < i)%nat -> nth_error values j = Some w ->
                        rstrip_nul w <> rstrip_nul x.
Proof.
  intros H. destruct (np_absent_or_found values x) as [Hn|Hex].
  - rewrite (encode_absent values x Hn) in H. discriminate.
  - destruct (encode_found values x Hex) as (k & v & Hk & Hv & Ev & Hmin).
    assert (k = i) by congruence. subst k.
    exists v. split; [exact Hv|]. split; [apply np_eqb_true; exact Ev|].
    intros j w Hj Hw Heq. apply np_eqb_true in Heq.
    rewrite (Hmin j w Hj Hw) in Heq. discriminate.
Qed.

(** X1: an index returned by the lookup is within the value list, its
    entry equals the label up to trailing NUL characters, and it is the
    first position with such an entry; with a repeated label the later
    occurrences are never returned. *)
Theorem encode_first_occurrence (values : list string) (x : string) (i : nat) :
  encode values x = Ok i ->
  (i < List.length values)%nat /\
  exists v, nth_error values i = Some v /\ rstrip_nul v = rstrip_nul x /\
            forall j w, (j < i)%nat -> nth_error values j = Some w ->
                        rstrip_nul w <> rstrip_nul x.
Proof.
  intros H. destruct (encode_ok_first values x i H) as (v & Hv & Ev & Hmin).
  split; [apply nth_error_Some; congruence|]. eauto.
Qed.

Lemma encode_first_occurrence_witness :
  (1 < List.length ["T1"; "T2"; "T2"])%nat /\
  exists v, nth_error ["T1"; "T2"; "T2"] 1 = Some v /\
            rstrip_nul v = rstrip_nul T2_nul /\
            forall j w, (j < 1)%nat -> nth_error ["T1"; "T2"; "T2"] j = Some w ->
                        rstrip_nul w <> rstrip_nul T2_nul.
Proof.
  apply (encode_first_occurrence ["T1"; "T2"; "T2"] T2_nul 1). reflexivity.
Defined.

(** X2: two labels that encode to the same ordinal are the same label
    up to trailing NUL characters. *)
Theorem encode_injective (values : list string) (x y : string) (i : nat) :
  encode values x = Ok i -> encode values y = Ok i ->
  rstrip_nul x = rstrip_nul y.
Proof.
  intros Hx Hy.
  destruct (encode_ok_first values x i Hx) as (v & Hv & Ex & _).
  destruct (encode_ok_first values y i Hy) as (w & Hw & Ey & _).
  congruence.
Qed.

Lemma encode_injective_witness : rstrip_nul "T2" = rstrip_nul T2_nul.
Proof.
  apply (encode_injective ["T1"; "T2"] "T2" T2_nul 1); reflexivity.
Defined.

Lemma encode_raises values x e : encode values x = Raise e -> e = IndexError.
Proof.
  intros H. destruct (encode_result values x) as [[i Hi]|Hr]; congruence.
Qed.

(** X3: the lookup fails exactly on the labels that compare equal to no
    entry of the value list (trailing NUL characters ignored), and
    [IndexError] is the only exception it ends in. *)
Theorem encode_fails_iff_absent (values : list string) (x : string) :
  (forall e, encode values x = Raise e -> e = IndexError) /\
  (encode values x = Raise IndexError <->
   forall v, In v values -> rstrip_nul v <> rstrip_nul x).
Proof.
  split.
  - intros e H. destruct (encode_result values x) as [[i Hi]|Hr]; congruence.
  - split.
    + intros H v Hin Heq. apply np_eqb_true in Heq.
      destruct (encode_found values x (ex_intro _ v (conj Hin Heq)))
        as (i & w & Hi & _).
      congruence.
    + intros H. apply encode_absent. intros v Hin.
      destruct (np_eqb v x) eqn:E; [|reflexivity].
      apply np_eqb_true in E. exfalso. exact (H v Hin E).
Qed.

(** ** Distances and exact matches (lines 226-228) *)

Lemma sqr_zero x : sqr x == 0 -> x == 0.
Proof.
  unfold sqr. intros H. destruct (Qmult_integral _ _ H); assumption.
Qed.

Lemma dist_sq_zero_iff a b :
  dist_sq (euclidean a b) == 0 <-> point_eq a b.
Proof.
  destruct a as [[a1 a2] a3], b as [[b1 b2] b3]. simpl.
  pose proof (sqr_nonneg (a1 - b1)) as H1.
  pose proof (sqr_nonneg (a2 - b2)) as H2.
  pose proof (sqr_nonneg (a3 - b3)) as H3.
  split.
  - intros H.
    assert (E1 : sqr (a1 - b1) == 0) by lra.
    assert (E2 : sqr (a2 - b2) == 0) by lra.
    assert (E3 : sqr (a3 - b3) == 0) by lra.
    apply sqr_zero in E1, E2, E3. repeat split; lra.
  - intros (E1 & E2 & E3). unfold sqr. rewrite E1, E2, E3. ring.
Qed.

Lemma Q2R_zero : Q2R 0 = 0%R.
Proof. unfold Q2R. simpl. lra. Qed.

(** X4: the distance between two points is zero exactly when the points
    are numerically equal. *)
Theorem euclidean_zero_iff (a b : point) :
  Dist_val (euclidean a b) = 0%R <-> point_eq a b.
Proof.
  rewrite <- dist_sq_zero_iff. unfold Dist_val. split.
  - intros H. apply eqR_Qeq. rewrite Q2R_zero.
    apply sqrt_eq_0; [|exact H].
    rewrite <- Q2R_zero. apply Qle_Rle, euclidean_nonneg.
  - intros H. rewrite (Qeq_eqR _ _ H), Q2R_zero. apply sqrt_0.
Qed.

(** X5: when the query coincides with a centroid of the set, the
    matching step returns the first position whose centroid coincides
    with the query. *)
Theorem closest_cluster_exact_match
    (g : globals) (xi : point) (cs : list point) (k : nat) (c : point) :
  centroids g = Some cs -> nth_error cs k = Some c -> point_eq xi c ->
  exists idx ci,
    outcome (closest_cluster xi g) = Ok idx /\
    nth_error cs idx = Some ci /\ point_eq xi ci /\ (idx <= k)%nat /\
    forall j cj, (j < idx)%nat -> nth_error cs j = Some cj -> ~ point_eq xi cj.
Proof.
  intros Hc Hk Heq.
  assert (Hne : map (euclidean xi) cs <> []).
  { destruct cs; [destruct k; discriminate|discriminate]. }
  destruct (argmin_spec _ Hne) as (i & v & Ha & Hv & Hmin & Hfirst).
  rewrite nth_error_map in Hv.
  destruct (nth_error cs i) as [ci|] eqn:Hi; simpl in Hv; [|discriminate].
  assert (Ev : v = euclidean xi ci) by congruence. subst v. clear Hv.
  assert (Hz : dist_sq (euclidean xi c) == 0) by (apply dist_sq_zero_iff; exact Heq).
  assert (Hv0 : dist_sq (euclidean xi ci) == 0).
  { pose proof (euclidean_nonneg xi ci).
    assert (dist_sq (euclidean xi ci) <= dist_sq (euclidean xi c)).
    { apply (Hmin k). rewrite nth_error_map, Hk. reflexivity. }
    lra. }
  exists i, ci. rewrite (closest_cluster_run xi g cs Hc), Ha.
  split; [reflexivity|]. split; [exact Hi|].
  split; [apply dist_sq_zero_iff; exact Hv0|]. split.
  - destruct (Nat.le_gt_cases i k) as [Hle|Hgt]; [exact Hle|].
    assert (dist_sq (euclidean xi ci) < dist_sq (euclidean xi c)).
    { apply (Hfirst k); [exact Hgt|]. rewrite nth_error_map, Hk. reflexivity. }
    lra.
  - intros j cj Hlt Hj Hpe. apply dist_sq_zero_iff in Hpe.
    assert (dist_sq (euclidean xi ci) < dist_sq (euclidean xi cj)).
    { apply (Hfirst j); [exact Hlt|]. rewrite nth_error_map, Hj. reflexivity. }
    lra.
Qed.

Lemma closest_cluster_exact_match_witness :
  exists idx ci,
    outcome (closest_cluster ones two_profiles) = Ok idx /\
    nth_error two_centroids idx = Some ci /\ point_eq ones ci /\ (idx <= 1)%nat /\
    forall j cj, (j < idx)%nat -> nth_error two_centroids j = Some cj ->
                 ~ point_eq ones cj.
Proof.
  apply (closest_cluster_exact_match two_profiles ones two_centroids 1 ones).
  - reflexivity.
  - reflexivity.
  - simpl. repeat split; reflexivity.
Defined.

(** ** Frame and exception rules *)

Lemma read_only_ret {A} (a : A) : read_only (ret a).
Proof. intros g. split; [reflexivity|constructor]. Qed.

Lemma read_only_raise {A} (e : exn) : read_only (@raise A e).
Proof. intros g. split; [reflexivity|constructor]. Qed.

Lemma read_only_lift {A} (r : result A) : read_only (lift r).
Proof. intros g. split; [reflexivity|constructor]. Qed.

Lemma read_only_load {A} x (proj : globals -> A) : read_only (load x proj).
Proof. intros g. split; [reflexivity|]. repeat constructor. Qed.

Lemma read_only_call {A} f (r : result A) :
  is_remote_call (Call f) = false -> read_only (call f r).
Proof. intros Hf g. split; [reflexivity|]. repeat constructor. exact Hf. Qed.

Lemma read_only_bind {A B} (m : M A) (k : A -> M B) :
  read_only m -> (forall a, read_only (k a)) -> read_only (bind m k).
Proof.
  intros Hm Hk g. specialize (Hm g). unfold bind, final, trace in *.
  destruct (m g) as [[[a|e] g1] l1]; simpl in Hm; destruct Hm as [-> Hl].
  - specialize (Hk a g). unfold final, trace in Hk.
    destruct (k a g) as [[r g2] l2]. simpl in *. destruct Hk as [-> Hl2].
    split; [reflexivity|]. apply Forall_app. auto.
  - simpl. auto.
Qed.

Lemma raises_within_bind {A B} (P : exn -> Prop) (m : M A) (k : A -> M B) :
  raises_within P m -> (forall a, raises_within P (k a)) ->
  raises_within P (bind m k).
Proof.
  intros Hm Hk g e. specialize (Hm g). unfold bind, outcome in *.
  destruct (m g) as [[[a|e1] g1] l1]; simpl in Hm.
  - specialize (Hk a g1 e). unfold outcome in Hk.
    destruct (k a g1) as [[r g2] l2]. simpl in *. exact Hk.
  - simpl. intros H. apply Hm. congruence.
Qed.

Lemma read_only_encode_stage c t n m : read_only (encode_stage c t n m).
Proof.
  unfold encode_stage.
  repeat (apply read_only_bind; [apply read_only_call; reflexivity|intros ?]).
  apply read_only_ret.
Qed.

Lemma read_only_distances_of xi cs : read_only (distances_of xi cs).
Proof.
  induction cs as [|xj rest IH]; simpl.
  - apply read_only_ret.
  - apply read_only_bind; [apply read_only_call; reflexivity|intros d].
    apply read_only_bind; [exact IH|intros ds]. apply read_only_ret.
Qed.

Lemma read_only_closest_cluster xi : read_only (closest_cluster xi).
Proof.
  unfold closest_cluster.
  apply read_only_bind; [apply read_only_load|intros [cs|]].
  - apply read_only_bind; [apply read_only_distances_of|intros ds].
    apply read_only_call. reflexivity.
  - apply read_only_raise.
Qed.

Lemma read_only_profile_frame idx : read_only (profile_frame idx).
Proof.
  unfold profile_frame.
  apply read_only_bind; [apply read_only_load|intros [ps|]].
  - apply read_only_bind; [apply (read_only_lift (getitem ps idx))|intros rate].
    apply read_only_call. reflexivity.
  - apply read_only_raise.
Qed.

(** X6: the stage-matching callback is read-only.  For every input and
    every store it ends in the store it started in, and its trace holds
    no store and no call of the remote service. *)
Theorem survival_profile_read_only (c : cdm) (t n m : option string) (g : globals) :
  final (survival_profile c t n m g) = g /\
  Forall (fun e => is_store e = false /\ is_remote_call e = false)
         (trace (survival_profile c t n m g)).
Proof.
  revert g. change (read_only (survival_profile c t n m)).
  unfold survival_profile. destruct (truthy t && truthy n && truthy m).
  - apply read_only_bind; [apply read_only_encode_stage|intros xi].
    apply read_only_bind; [apply read_only_closest_cluster|intros idx].
    apply read_only_bind; [apply read_only_profile_frame|intros dfp].
    apply read_only_ret.
  - apply read_only_ret.
Qed.

Lemma raises_within_ret {A} P (a : A) : raises_within P (ret a).
Proof. intros g e H. discriminate H. Qed.

Lemma raises_within_load {A} P x (proj : globals -> A) : raises_within P (load x proj).
Proof. intros g e H. discriminate H. Qed.

Lemma raises_within_result {A} (P : exn -> Prop) (m : M A) (r : result A) :
  (forall g, outcome (m g) = r) -> (forall e, r = Raise e -> P e) ->
  raises_within P m.
Proof. intros Hm Hr g e H. apply Hr. rewrite <- H, Hm. reflexivity. Qed.

Lemma getitem_raises {A} (l : list A) i e : getitem l i = Raise e -> e = IndexError.
Proof. unfold getitem. destruct (nth_error l i); congruence. Qed.

Lemma argmin_raises l e : argmin l = Raise e -> e = ValueError.
Proof. destruct l; simpl; congruence. Qed.

Lemma mkDataFrame_raises rate days e :
  mkDataFrame rate days = Raise e -> e = ValueError.
Proof.
  unfold mkDataFrame. destruct (Nat.eqb _ _); congruence.
Qed.

(** X7: whatever the inputs and the store, the stage-matching callback
    ends in no exception other than [IndexError], [TypeError] and
    [ValueError]. *)
Theorem survival_profile_exceptions
    (c : cdm) (t n m : option string) (g : globals) (e : exn) :
  outcome (survival_profile c t n m g) = Raise e ->
  e = IndexError \/ e = TypeError \/ e = ValueError.
Proof.
  revert g e. change (raises_within matching_exn (survival_profile c t n m)).
  unfold survival_profile. destruct (truthy t && truthy n && truthy m);
    [|apply raises_within_ret].
  apply raises_within_bind.
  { assert (Hlook : forall values x,
              raises_within matching_exn (call NpWhere (encode values x))).
    { intros values x. apply (raises_within_result _ _ (encode values x));
        [reflexivity|].
      intros e H. left. exact (encode_raises values x e H). }
    unfold encode_stage.
    apply raises_within_bind; [apply Hlook|intros t'].
    apply raises_within_bind; [apply Hlook|intros n'].
    apply raises_within_bind; [apply Hlook|intros m'].
    apply raises_within_ret. }
  intros xi. apply raises_within_bind.
  { unfold closest_cluster.
    apply raises_within_bind; [apply raises_within_load|intros [cs|]].
    - apply raises_within_bind.
      + intros g e. rewrite distances_of_run. discriminate.
      + intros ds. apply (raises_within_result _ _ (argmin ds)); [reflexivity|].
        intros e H. right. right. exact (argmin_raises ds e H).
    - intros g e H. right. left. unfold raise, outcome in H. simpl in H. congruence. }
  intros idx. apply raises_within_bind; [|intros dfp; apply raises_within_ret].
  unfold profile_frame.
  apply raises_within_bind; [apply raises_within_load|intros [ps|]].
  - apply raises_within_bind.
    + apply (raises_within_result _ _ (getitem ps idx)); [reflexivity|].
      intros e H. left. exact (getitem_raises ps idx e H).
    + intros rate.
      apply (raises_within_result _ _ (mkDataFrame rate (py_range 0 730 30)));
        [reflexivity|].
      intros e H. right. right. exact (mkDataFrame_raises _ _ e H).
  - intros g e H. right. left. unfold raise, outcome in H. simpl in H. congruence.
Qed.

Lemma survival_profile_exceptions_witness :
  TypeError = IndexError \/ TypeError = TypeError \/ TypeError = ValueError.
Proof.
  apply (survival_profile_exceptions scheme (Some "T1") (Some "N0") (Some "M0")
           initial TypeError).
  reflexivity.
Defined.

(** ** What a displayed page implies (lines 213-249) *)

(** X8: if the callback, with the three inputs selected, returns a
    component at all, then each label is found by the lookup,
    [centroids] and [profiles] are both set, the profile at the position
    of the minimum distance has exactly 25 values, and the component is
    the heading with the line chart of that profile against the days 0,
    30, ..., 720. *)
Theorem survival_profile_success_inv
    (c : cdm) (t n m : string) (g : globals) (h : html) :
  t <> "" -> n <> "" -> m <> "" ->
  outcome (survival_profile c (Some t) (Some n) (Some m) g) = Ok h ->
  exists ti ni mi cs ps idx p,
    encode (t_values c) t = Ok ti /\
    encode (n_values c) n = Ok ni /\
    encode (m_values c) m = Ok mi /\
    centroids g = Some cs /\ profiles g = Some ps /\
    argmin (map (euclidean (of_nat ti, of_nat ni, of_nat mi)) cs) = Ok idx /\
    nth_error ps idx = Some p /\ List.length p = 25%nat /\
    h = survival_chart p.
Proof.
  intros Ht Hn Hm Hout.
  assert (Hfail : forall l, encode_stage c t n m g = (Raise IndexError, g, l) -> False).
  { intros l He. unfold survival_profile in Hout.
    rewrite !truthy_selected in Hout by assumption. cbn [andb label] in Hout.
    rewrite (bind_raise _ _ _ _ _ _ He) in Hout. discriminate Hout. }
  destruct (np_absent_or_found (t_values c) t) as [Nt|It].
  { destruct (encode_stage_invalid c t n m g (or_introl Nt)) as (l & He & _).
    destruct (Hfail l He). }
  destruct (np_absent_or_found (n_values c) n) as [Nn|In_].
  { destruct (encode_stage_invalid c t n m g (or_intror (or_introl Nn)))
      as (l & He & _).
    destruct (Hfail l He). }
  destruct (np_absent_or_found (m_values c) m) as [Nm|Im].
  { destruct (encode_stage_invalid c t n m g (or_intror (or_intror Nm)))
      as (l & He & _).
    destruct (Hfail l He). }
  clear Hfail.
  destruct (encode_found _ _ It) as (ti & vt & Et & _).
  destruct (encode_found _ _ In_) as (ni & vn & En & _).
  destruct (encode_found _ _ Im) as (mi & vm & Em & _).
  pose proof (encode_stage_run c t n m g ti ni mi Et En Em) as He.
  rewrite (survival_profile_encoded c t n m g _ Ht Hn Hm He) in Hout.
  destruct (centroids g) as [cs|] eqn:Hc.
  2: { rewrite (closest_cluster_unset _ g Hc) in Hout. discriminate Hout. }
  rewrite (closest_cluster_run _ g cs Hc) in Hout.
  destruct (argmin (map (euclidean (of_nat ti, of_nat ni, of_nat mi)) cs))
    as [idx|e] eqn:Ha; [|discriminate Hout].
  destruct (profiles g) as [ps|] eqn:Hp.
  2: { rewrite (profile_frame_unset idx g Hp) in Hout. discriminate Hout. }
  rewrite (profile_frame_run idx g ps Hp) in Hout.
  destruct (nth_error ps idx) as [p|] eqn:Hi; [|discriminate Hout].
  unfold mkDataFrame in Hout.
  destruct (Nat.eqb_spec (List.length p) (List.length (py_range 0 730 30)))
    as [Hlen|Hlen]; [|discriminate Hout].
  exists ti, ni, mi, cs, ps, idx, p.
  do 3 (split; [assumption|]). do 2 (split; [reflexivity|]).
  do 2 (split; [assumption|]). split; [exact Hlen|].
  unfold outcome in Hout. cbn [fst] in Hout. injection Hout as <-. reflexivity.
Qed.

Lemma survival_profile_success_inv_witness :
  exists ti ni mi cs ps idx p,
    encode (t_values scheme) "T2" = Ok ti /\
    encode (n_values scheme) "N1" = Ok ni /\
    encode (m_values scheme) "M1" = Ok mi /\
    centroids two_profiles = Some cs /\ profiles two_profiles = Some ps /\
    argmin (map (euclidean (of_nat ti, of_nat ni, of_nat mi)) cs) = Ok idx /\
    nth_error ps idx = Some p /\ List.length p = 25%nat /\
    survival_chart falling_profile = survival_chart p.
Proof.
  apply (survival_profile_success_inv scheme "T2" "N1" "M1" two_profiles
           (survival_chart falling_profile));
    try discriminate. reflexivity.
Defined.

(** X9: with valid labels and an empty centroid list in the store, the
    callback computes no distance and ends in the [ValueError] of the
    minimum over an empty sequence. *)
Theorem survival_profile_no_centroids (c : cdm) (t n m : string) (g : globals) :
  t <> "" -> n <> "" -> m <> "" ->
  In t (t_values c) -> In n (n_values c) -> In m (m_values c) ->
  centroids g = Some [] ->
  survival_profile c (Some t) (Some n) (Some m) g =
  (Raise ValueError, g, encode_trace ++ [Load Gcentroids; Call NpArgmin]).
Proof.
  intros Ht Hn Hm It In_ Im Hc.
  destruct (encode_stage_valid c t n m g It In_ Im) as (xi & He).
  rewrite (survival_profile_encoded c t n m g xi Ht Hn Hm He).
  rewrite (closest_cluster_run xi g [] Hc). reflexivity.
Qed.

Lemma survival_profile_no_centroids_witness :
  survival_profile scheme (Some "T1") (Some "N1") (Some "M0")
    (set_centroids (Some []) initial) =
  (Raise ValueError, set_centroids (Some []) initial,
   encode_trace ++ [Load Gcentroids; Call NpArgmin]).
Proof.
  apply survival_profile_no_centroids; try discriminate; simpl; auto.
Defined.

(** X10: with valid labels, a non-empty centroid set and [profiles]
    still [None], the callback completes the matching and only then
    ends in [TypeError] on subscripting [profiles]. *)
Theorem survival_profile_profiles_unset
    (c : cdm) (t n m : string) (g : globals) (cs : list point) :
  t <> "" -> n <> "" -> m <> "" ->
  In t (t_values c) -> In n (n_values c) -> In m (m_values c) ->
  centroids g = Some cs -> cs <> [] -> profiles g = None ->
  survival_profile c (Some t) (Some n) (Some m) g =
  (Raise TypeError, g,
   encode_trace ++ matching_trace (List.length cs) ++ [Load Gprofiles]).
Proof.
  intros Ht Hn Hm It In_ Im Hc Hne Hp.
  destruct (encode_stage_valid c t n m g It In_ Im) as (xi & He).
  destruct (closest_cluster_some xi g cs Hc Hne) as (idx & Hrun & _ & _).
  rewrite (survival_profile_encoded c t n m g xi Ht Hn Hm He).
  rewrite Hrun, (profile_frame_unset idx g Hp). reflexivity.
Qed.

Lemma survival_profile_profiles_unset_witness :
  survival_profile scheme (Some "T1") (Some "N1") (Some "M0")
    (set_centroids (Some two_centroids) initial) =
  (Raise TypeError, set_centroids (Some two_centroids) initial,
   encode_trace ++ matching_trace (List.length two_centroids) ++ [Load Gprofiles]).
Proof.
  apply survival_profile_profiles_unset; try discriminate; simpl; auto.
Defined.

(** ** Running the retrieval callback (lines 177-204) *)

Lemma retrieval_polled r n g u h id ti :
  (0 < n)%Z -> client g = Some u -> task g = Some h -> th_id h = Some id ->
  task_get r id = Ok ti ->
  get_similarity_analysis_results r n g =
  if is_complete ti then
    match fetch_results r ti g with
    | (Ok d, g1, l1) =>
        (outcome (report (Some d) g1), final (report (Some d) g1),
         poll_trace ++ l1 ++ trace (report (Some d) g1))
    | (Raise e, g1, l1) => (Raise e, g1, poll_trace ++ l1)
    end
  else (outcome (report None g), final (report None g),
        poll_trace ++ trace (report None g)).
Proof.
  intros Hn Hcl Htk Hid Hget. unfold get_similarity_analysis_results.
  apply Z.ltb_lt in Hn. rewrite Hn.
  unfold bind at 1. unfold load at 1. rewrite Hcl.
  unfold bind at 1. unfold load at 1. rewrite Htk.
  unfold bind at 1. unfold lift at 1. rewrite Hid. cbn [getkey].
  unfold bind at 1. unfold call at 1. rewrite Hget.
  destruct (is_complete ti).
  - unfold bind at 1. unfold bind at 1.
    destruct (fetch_results r ti g) as [[[d|e] g1] l1].
    + unfold ret at 1. unfold outcome, final, trace.
      destruct (report (Some d) g1) as [[o g2] l2]. simpl.
      rewrite app_nil_r. reflexivity.
    + reflexivity.
  - unfold bind at 1. unfold ret at 1. unfold outcome, final, trace.
    destruct (report None g) as [[o g2] l2]. reflexivity.
Qed.

Lemma fetch_results_run r ti g tid ri e rest res cs ps f s :
  ti_id ti = Some tid -> result_list r tid = Ok ri ->
  ri_data ri = Some (e :: rest) -> e_result e = Some res ->
  p_centroids res = Some cs -> p_profiles res = Some ps ->
  e_finished_at e = Some f -> start g = Some s ->
  fetch_results r ti g =
  (Ok (round3 ((f - s) / inject_Z 60)),
   set_profiles ps (set_centroids cs g), fetch_trace).
Proof.
  intros Hid Hl Hd Hr Hc Hp Hf Hs. unfold fetch_results.
  unfold bind, load, lift, call, store, getitem.
  rewrite Hid. cbn [getkey]. rewrite Hl, Hd. cbn [getkey nth_error].
  rewrite Hr. cbn [getkey]. rewrite Hc, Hp, Hf. cbn [getkey].
  cbn [start set_profiles set_centroids]. rewrite Hs. reflexivity.
Qed.

Lemma report_run d g :
  report d g =
  if nonempty (centroids g) then
    if nonempty (profiles g) then
      match d with
      | Some x => (Ok (completed x), g, [Load Gcentroids; Load Gprofiles])
      | None => (Raise UnboundLocalError, g, [Load Gcentroids; Load Gprofiles])
      end
    else (Ok still_waiting, g, [Load Gcentroids; Load Gprofiles])
  else (Ok still_waiting, g, [Load Gcentroids]).
Proof.
  unfold report, bind, load.
  destruct (nonempty (centroids g)); [|reflexivity].
  unfold ret. destruct (nonempty (profiles g)); [|reflexivity].
  destruct d; reflexivity.
Qed.

(** X11: when the task is complete and the first result entry carries
    non-empty centroids and profiles and a finish time, the retrieval
    stores both lists in the store and answers with the
    completed-analysis component; the number of minutes it shows is
    left open. *)
Theorem retrieval_success
    (r : remote) (n : Z) (g : globals) (u : unit) (h : task_handle) (id tid : Z)
    (ti : task_info) (ri : result_info) (e : result_entry)
    (rest : list result_entry) (res : payload)
    (c : point) (cs : list point) (p : list Q) (ps : list (list Q)) (f s : Q) :
  (0 < n)%Z -> client g = Some u -> task g = Some h -> th_id h = Some id ->
  task_get r id = Ok ti -> ti_complete ti = Some true ->
  ti_id ti = Some tid -> result_list r tid = Ok ri ->
  ri_data ri = Some (e :: rest) -> e_result e = Some res ->
  p_centroids res = Some (Some (c :: cs)) ->
  p_profiles res = Some (Some (p :: ps)) ->
  e_finished_at e = Some f -> start g = Some s ->
  exists minutes,
    get_similarity_analysis_results r n g =
    (Ok (completed minutes),
     set_profiles (Some (p :: ps)) (set_centroids (Some (c :: cs)) g),
     poll_trace ++ fetch_trace ++ [Load Gcentroids; Load Gprofiles]).
Proof.
  intros Hn Hcl Htk Hid Hget Hco Htid Hl Hd Hr Hc Hp Hf Hs.
  exists (round3 ((f - s) / inject_Z 60)).
  rewrite (retrieval_polled r n g u h id ti Hn Hcl Htk Hid Hget).
  unfold is_complete. rewrite Hco.
  rewrite (fetch_results_run r ti g tid ri e rest res _ _ f s
             Htid Hl Hd Hr Hc Hp Hf Hs).
  rewrite report_run. reflexivity.
Qed.

Lemma retrieval_success_witness :
  exists minutes,
    get_similarity_analysis_results done_remote 1 submitted =
    (Ok (completed minutes),
     set_profiles (Some [flat_profile; falling_profile])
       (set_centroids (Some (origin :: [ones])) submitted),
     poll_trace ++ fetch_trace ++ [Load Gcentroids; Load Gprofiles]).
Proof.
  apply (retrieval_success done_remote 1 submitted tt {| th_id := Some 3%Z |} 3 3
           done_info
           {| ri_data := Some [{| e_result := Some done_payload;
                                  e_finished_at := Some 90 |}] |}
           {| e_result := Some done_payload; e_finished_at := Some 90 |}
           [] done_payload origin [ones] flat_profile [falling_profile] 90 0);
    reflexivity.
Defined.

(** X12: polling a task that is not complete while the store still holds
    non-empty centroids and profiles from an earlier retrieval ends in
    [UnboundLocalError]: line 197 reads [duration], which only the
    branch of line 187 binds.  The store is unchanged. *)
Theorem retrieval_stale_results_unbound
    (r : remote) (n : Z) (g : globals) (u : unit) (h : task_handle) (id : Z)
    (ti : task_info) :
  (0 < n)%Z -> client g = Some u -> task g = Some h -> th_id h = Some id ->
  task_get r id = Ok ti -> is_complete ti = false ->
  nonempty (centroids g) = true -> nonempty (profiles g) = true ->
  get_similarity_analysis_results r n g =
  (Raise UnboundLocalError, g, poll_trace ++ [Load Gcentroids; Load Gprofiles]).
Proof.
  intros Hn Hcl Htk Hid Hget Hco Hc Hp.
  rewrite (retrieval_polled r n g u h id ti Hn Hcl Htk Hid Hget), Hco.
  rewrite report_run, Hc, Hp. reflexivity.
Qed.

Lemma retrieval_stale_results_unbound_witness :
  get_similarity_analysis_results idle_remote 1 resubmitted =
  (Raise UnboundLocalError, resubmitted,
   poll_trace ++ [Load Gcentroids; Load Gprofiles]).
Proof.
  apply (retrieval_stale_results_unbound idle_remote 1 resubmitted tt
           {| th_id := Some 3%Z |} 3
           {| ti_complete := Some false; ti_id := Some 3%Z |});
    reflexivity.
Defined.

(** X13: when the completed result carries the ['centroids'] key but not
    the ['profiles'] key, the retrieval ends in [KeyError] after it has
    already overwritten [centroids]; [profiles] keeps its old value. *)
Theorem retrieval_partial_payload
    (r : remote) (n : Z) (g : globals) (u : unit) (h : task_handle) (id tid : Z)
    (ti : task_info) (ri : result_info) (e : result_entry)
    (rest : list result_entry) (res : payload) (cs : option (list point)) :
  (0 < n)%Z -> client g = Some u -> task g = Some h -> th_id h = Some id ->
  task_get r id = Ok ti -> is_complete ti = true ->
  ti_id ti = Some tid -> result_list r tid = Ok ri ->
  ri_data ri = Some (e :: rest) -> e_result e = Some res ->
  p_centroids res = Some cs -> p_profiles res = None ->
  get_similarity_analysis_results r n g =
  (Raise KeyError, set_centroids cs g,
   poll_trace ++ [Load Gclient; Call ClientResultList; Store Gcentroids]).
Proof.
  intros Hn Hcl Htk Hid Hget Hco Htid Hl Hd Hr Hc Hp.
  rewrite (retrieval_polled r n g u h id ti Hn Hcl Htk Hid Hget), Hco.
  unfold fetch_results, bind, load, lift, call, store, getitem.
  rewrite Htid. cbn [getkey]. rewrite Hl, Hd. cbn [getkey nth_error].
  rewrite Hr. cbn [getkey]. rewrite Hc, Hp. reflexivity.
Qed.

Lemma retrieval_partial_payload_witness :
  get_similarity_analysis_results torn_remote 1 submitted =
  (Raise KeyError, set_centroids (Some two_centroids) submitted,
   poll_trace ++ [Load Gclient; Call ClientResultList; Store Gcentroids]).
Proof.
  apply (retrieval_partial_payload torn_remote 1 submitted tt
           {| th_id := Some 3%Z |} 3 3 done_info
           {| ri_data := Some [{| e_result :=
                                    Some {| p_centroids := Some (Some two_centroids);
                                            p_profiles := None |};
                                  e_finished_at := Some 90 |}] |}
           {| e_result := Some {| p_centroids := Some (Some two_centroids);
                                  p_profiles := None |};
              e_finished_at := Some 90 |}
           [] {| p_centroids := Some (Some two_centroids); p_profiles := None |});
    reflexivity.
Defined.

(** X14: a completed result whose centroid list or profile list is
    empty (or null) is stored all the same, and the callback then
    answers "still waiting" although the task is complete. *)
Theorem retrieval_empty_result
    (r : remote) (n : Z) (g : globals) (u : unit) (h : task_handle) (id tid : Z)
    (ti : task_info) (ri : result_info) (e : result_entry)
    (rest : list result_entry) (res : payload)
    (cs : option (list point)) (ps : option (list (list Q))) (f s : Q) :
  (0 < n)%Z -> client g = Some u -> task g = Some h -> th_id h = Some id ->
  task_get r id = Ok ti -> is_complete ti = true ->
  ti_id ti = Some tid -> result_list r tid = Ok ri ->
  ri_data ri = Some (e :: rest) -> e_result e = Some res ->
  p_centroids res = Some cs -> p_profiles res = Some ps ->
  e_finished_at e = Some f -> start g = Some s ->
  nonempty cs && nonempty ps = false ->
  outcome (get_similarity_analysis_results r n g) = Ok still_waiting /\
  final (get_similarity_analysis_results r n g) =
    set_profiles ps (set_centroids cs g).
Proof.
  intros Hn Hcl Htk Hid Hget Hco Htid Hl Hd Hr Hc Hp Hf Hs Hemp.
  rewrite (retrieval_polled r n g u h id ti Hn Hcl Htk Hid Hget), Hco.
  rewrite (fetch_results_run r ti g tid ri e rest res cs ps f s
             Htid Hl Hd Hr Hc Hp Hf Hs).
  rewrite report_run. cbn [centroids profiles set_profiles set_centroids].
  unfold outcome, final.
  destruct (nonempty cs); [|split; reflexivity].
  destruct (nonempty ps); [discriminate Hemp|split; reflexivity].
Qed.

Lemma retrieval_empty_result_witness :
  outcome (get_similarity_analysis_results empty_remote 1 submitted)
    = Ok still_waiting /\
  final (get_similarity_analysis_results empty_remote 1 submitted) =
    set_profiles (Some [flat_profile]) (set_centroids (Some []) submitted).
Proof.
  apply (retrieval_empty_result empty_remote 1 submitted tt
           {| th_id := Some 3%Z |} 3 3 done_info
           {| ri_data := Some [{| e_result :=
                                    Some {| p_centroids := Some (Some []);
                                            p_profiles := Some (Some [flat_profile]) |};
                                  e_finished_at := Some 90 |}] |}
           {| e_result := Some {| p_centroids := Some (Some []);
                                  p_profiles := Some (Some [flat_profile]) |};
              e_finished_at := Some 90 |}
           [] {| p_centroids := Some (Some []);
                 p_profiles := Some (Some [flat_profile]) |}
           (Some []) (Some [flat_profile]) 90 0);
    reflexivity.
Defined.

(** ** What the retrieval callback leaves alone *)

Section Keeps.
Variable R : globals -> globals -> Prop.
Hypothesis R_refl : forall g, R g g.
Hypothesis R_trans : forall g1 g2 g3, R g1 g2 -> R g2 g3 -> R g1 g3.

Lemma keeps_ret {A} (a : A) : keeps R (ret a).
Proof. intros g. apply R_refl. Qed.

Lemma keeps_raise {A} (e : exn) : keeps R (@raise A e).
Proof. intros g. apply R_refl. Qed.

Lemma keeps_lift {A} (r : result A) : keeps R (lift r).
Proof. intros g. apply R_refl. Qed.

Lemma keeps_load {A} x (proj : globals -> A) : keeps R (load x proj).
Proof. intros g. apply R_refl. Qed.

Lemma keeps_call {A} f (r : result A) : keeps R (call f r).
Proof. intros g. apply R_refl. Qed.

Lemma keeps_store x upd : (forall g, R g (upd g)) -> keeps R (store x upd).
Proof. intros H g. apply H. Qed.

Lemma keeps_bind {A B} (m : M A) (k : A -> M B) :
  keeps R m -> (forall a, keeps R (k a)) -> keeps R (bind m k).
Proof.
  intros Hm Hk g. specialize (Hm g). unfold bind, final in *.
  destruct (m g) as [[[a|e] g1] l1]; simpl in Hm.
  - specialize (Hk a g1). unfold final in Hk.
    destruct (k a g1) as [[r g2] l2]. simpl in *.
    exact (R_trans _ _ _ Hm Hk).
  - simpl. exact Hm.
Qed.
End Keeps.

Lemma same_session_refl g : same_session g g.
Proof. repeat split. Qed.

Lemma same_session_trans g1 g2 g3 :
  same_session g1 g2 -> same_session g2 g3 -> same_session g1 g3.
Proof.
  intros (A1 & A2 & A3) (B1 & B2 & B3). repeat split; congruence.
Qed.

Ltac keeps_session_step :=
  first
    [ apply keeps_ret; exact same_session_refl
    | apply keeps_raise; exact same_session_refl
    | apply keeps_lift; exact same_session_refl
    | apply keeps_load; exact same_session_refl
    | apply keeps_call; exact same_session_refl
    | apply keeps_store; intros ?; repeat split
    | apply (keeps_bind _ same_session_trans); [|intros ?] ].

Lemma keeps_session_fetch r ti : keeps same_session (fetch_results r ti).
Proof.
  unfold fetch_results. repeat keeps_session_step.
  match goal with |- keeps _ (match ?x with _ => _ end) => destruct x end;
    keeps_session_step.
Qed.

Lemma keeps_session_report d : keeps same_session (report d).
Proof.
  unfold report. keeps_session_step; [keeps_session_step|].
  keeps_session_step.
  - destruct (nonempty a); repeat keeps_session_step.
  - destruct a0; [destruct d|]; keeps_session_step.
Qed.

(** X15: the retrieval callback never changes [client], [task] or
    [start], whatever the service answers and whether or not it ends in
    an exception. *)
Theorem retrieval_keeps_session (r : remote) (n : Z) (g : globals) :
  client (final (get_similarity_analysis_results r n g)) = client g /\
  task (final (get_similarity_analysis_results r n g)) = task g /\
  start (final (get_similarity_analysis_results r n g)) = start g.
Proof.
  assert (H : keeps same_session (get_similarity_analysis_results r n)).
  { unfold get_similarity_analysis_results.
    destruct (0 <? n)%Z; [|keeps_session_step].
    keeps_session_step; [keeps_session_step|]. destruct a; [|keeps_session_step].
    keeps_session_step; [keeps_session_step|]. destruct a; [|keeps_session_step].
    keeps_session_step; [keeps_session_step|].
    keeps_session_step; [keeps_session_step|].
    keeps_session_step; [|apply keeps_session_report].
    destruct (is_complete a0); [|keeps_session_step].
    keeps_session_step; [apply keeps_session_fetch|keeps_session_step]. }
  destruct (H g) as (H1 & H2 & H3). auto.
Qed.

(** ** When the retrieval callback acts *)

Lemma report_quiet d g e :
  In e (trace (report d g)) -> e = Load Gcentroids \/ e = Load Gprofiles.
Proof.
  rewrite report_run.
  destruct (nonempty (centroids g)); [destruct (nonempty (profiles g)); [destruct d|]|];
    simpl; intuition.
Qed.

(** Every way the callback can stop before [client.task.get] answers. *)
Lemma retrieval_not_polled r n g :
  (n <= 0)%Z \/ client g = None \/ task g = None \/
  (exists h, task g = Some h /\ th_id h = None) ->
  forall e, In e (trace (get_similarity_analysis_results r n g)) ->
            e = Load Gclient \/ e = Load Gtask.
Proof.
  intros H e. unfold get_similarity_analysis_results.
  destruct (0 <? n)%Z eqn:Hn; [|simpl; contradiction].
  apply Z.ltb_lt in Hn.
  unfold bind at 1. unfold load at 1.
  destruct (client g) as [u|] eqn:Hc; [|simpl; intuition].
  unfold bind at 1. unfold load at 1.
  destruct (task g) as [h|] eqn:Ht; [|simpl; intuition].
  unfold bind at 1. unfold lift at 1.
  destruct (th_id h) as [id|] eqn:Hid; [|simpl; intuition].
  exfalso. destruct H as [H|[H|[H|(h' & H1 & H2)]]]; try lia; try discriminate.
  congruence.
Qed.

(** X16: the retrieval callback calls the remote service only when the
    button has been clicked, a client is in place and the stored task
    handle has an id; otherwise its trace holds no call at all. *)
Theorem retrieval_calls_need_session (r : remote) (n : Z) (g : globals) (f : routine) :
  In (Call f) (trace (get_similarity_analysis_results r n g)) ->
  (0 < n)%Z /\ client g <> None /\
  exists h id, task g = Some h /\ th_id h = Some id.
Proof.
  intros Hin.
  destruct (Z.lt_ge_cases 0 n) as [Hn|Hn].
  2: { destruct (retrieval_not_polled r n g (or_introl Hn) _ Hin); discriminate. }
  destruct (client g) as [u|] eqn:Hc.
  2: { destruct (retrieval_not_polled r n g (or_intror (or_introl Hc)) _ Hin);
         discriminate. }
  destruct (task g) as [h|] eqn:Ht.
  2: { destruct (retrieval_not_polled r n g
                   (or_intror (or_intror (or_introl Ht))) _ Hin); discriminate. }
  destruct (th_id h) as [id|] eqn:Hid.
  2: { destruct (retrieval_not_polled r n g
                   (or_intror (or_intror (or_intror
                      (ex_intro _ h (conj Ht Hid))))) _ Hin); discriminate. }
  split; [exact Hn|]. split; [discriminate|]. eauto.
Qed.

Lemma retrieval_calls_need_session_witness :
  (0 < 1)%Z /\ client submitted <> None /\
  exists h id, task submitted = Some h /\ th_id h = Some id.
Proof.
  apply (retrieval_calls_need_session idle_remote 1 submitted ClientTaskGet).
  simpl. auto.
Defined.

(** X17: the retrieval callback writes [centroids] or [profiles] only
    after [client.task.get] has answered with a true ['complete'] field;
    an incomplete task, a failed poll or a missing session leaves both
    untouched. *)
Theorem retrieval_stores_need_completion
    (r : remote) (n : Z) (g : globals) (x : global) :
  In (Store x) (trace (get_similarity_analysis_results r n g)) ->
  exists h id ti,
    task g = Some h /\ th_id h = Some id /\
    task_get r id = Ok ti /\ is_complete ti = true.
Proof.
  intros Hin.
  destruct (Z.lt_ge_cases 0 n) as [Hn|Hn].
  2: { destruct (retrieval_not_polled r n g (or_introl Hn) _ Hin); discriminate. }
  destruct (client g) as [u|] eqn:Hc.
  2: { destruct (retrieval_not_polled r n g (or_intror (or_introl Hc)) _ Hin);
         discriminate. }
  destruct (task g) as [h|] eqn:Ht.
  2: { destruct (retrieval_not_polled r n g
                   (or_intror (or_intror (or_introl Ht))) _ Hin); discriminate. }
  destruct (th_id h) as [id|] eqn:Hid.
  2: { destruct (retrieval_not_polled r n g
                   (or_intror (or_intror (or_intror
                      (ex_intro _ h (conj Ht Hid))))) _ Hin); discriminate. }
  destruct (task_get r id) as [ti|e] eqn:Hget.
  - destruct (is_complete ti) eqn:Hco; [eauto 7|].
    exfalso. rewrite (retrieval_polled r n g u h id ti Hn Hc Ht Hid Hget), Hco in Hin.
    unfold trace at 1 in Hin. cbn [snd] in Hin.
    apply in_app_or in Hin. destruct Hin as [Hin|Hin].
    + simpl in Hin. intuition discriminate.
    + destruct (report_quiet _ _ _ Hin); discriminate.
  - exfalso. unfold get_similarity_analysis_results in Hin.
    apply Z.ltb_lt in Hn. rewrite Hn in Hin.
    unfold bind at 1 in Hin. unfold load at 1 in Hin. rewrite Hc in Hin.
    unfold bind at 1 in Hin. unfold load at 1 in Hin. rewrite Ht in Hin.
    unfold bind at 1 in Hin. unfold lift at 1 in Hin. rewrite Hid in Hin.
    cbn [getkey] in Hin.
    unfold bind at 1 in Hin. unfold call at 1 in Hin. rewrite Hget in Hin.
    simpl in Hin. intuition discriminate.
Qed.

Lemma retrieval_stores_need_completion_witness :
  exists h id ti,
    task submitted = Some h /\ th_id h = Some id /\
    task_get done_remote id = Ok ti /\ is_complete ti = true.
Proof.
  apply (retrieval_stores_need_completion done_remote 1 submitted Gcentroids).
  vm_compute. auto 10.
Defined.

(** ** From a reported completion to a displayed page *)

Lemma report_completed_inv d g x :
  outcome (report d g) = Ok (completed x) ->
  d = Some x /\ final (report d g) = g /\
  nonempty (centroids g) = true /\ nonempty (profiles g) = true.
Proof.
  rewrite report_run.
  destruct (nonempty (centroids g)); [destruct (nonempty (profiles g)); [destruct d|]|];
    unfold outcome, final, completed, still_waiting; simpl; intros H;
    try discriminate H.
  injection H as ->. auto.
Qed.

Lemma retrieval_completed_store r n g x :
  outcome (get_similarity_analysis_results r n g) = Ok (completed x) ->
  nonempty (centroids (final (get_similarity_analysis_results r n g))) = true /\
  nonempty (profiles (final (get_similarity_analysis_results r n g))) = true.
Proof.
  destruct (Z.lt_ge_cases 0 n) as [Hn|Hn].
  2: { apply Z.ltb_ge in Hn. unfold get_similarity_analysis_results.
       rewrite Hn. intros H. discriminate H. }
  destruct (client g) as [u|] eqn:Hc.
  2: { apply Z.ltb_lt in Hn. unfold get_similarity_analysis_results, bind, load.
       rewrite Hn, Hc. intros H. discriminate H. }
  destruct (task g) as [h|] eqn:Ht.
  2: { apply Z.ltb_lt in Hn. unfold get_similarity_analysis_results, bind, load.
       rewrite Hn, Hc, Ht. intros H. discriminate H. }
  destruct (th_id h) as [id|] eqn:Hid.
  2: { apply Z.ltb_lt in Hn.
       unfold get_similarity_analysis_results, bind, load, lift.
       rewrite Hn, Hc, Ht, Hid. intros H. discriminate H. }
  destruct (task_get r id) as [ti|e] eqn:Hget.
  2: { apply Z.ltb_lt in Hn.
       unfold get_similarity_analysis_results, bind, load, lift, call.
       rewrite Hn, Hc, Ht, Hid. cbn [getkey]. rewrite Hget.
       intros H. discriminate H. }
  rewrite (retrieval_polled r n g u h id ti Hn Hc Ht Hid Hget).
  destruct (is_complete ti).
  - destruct (fetch_results r ti g) as [[[d|e] g1] l1]; [|intros H; discriminate H].
    unfold outcome at 1, final at 1 2. cbn [fst snd]. intros H.
    destruct (report_completed_inv _ _ _ H) as (_ & -> & Hcs & Hps). auto.
  - unfold outcome at 1, final at 1 2. cbn [fst snd]. intros H.
    destruct (report_completed_inv _ _ _ H) as (Hd & _). discriminate Hd.
Qed.

(** X18: whenever the retrieval callback reports a completed analysis,
    the store it leaves holds a non-empty centroid list and a non-empty
    profile list. *)
Theorem retrieval_completed_inv (r : remote) (n : Z) (g : globals) (x : Q) :
  outcome (get_similarity_analysis_results r n g) = Ok (completed x) ->
  exists c cs p ps,
    centroids (final (get_similarity_analysis_results r n g)) = Some (c :: cs) /\
    profiles (final (get_similarity_analysis_results r n g)) = Some (p :: ps).
Proof.
  intros H. destruct (retrieval_completed_store r n g x H) as (Hc & Hp).
  destruct (centroids _) as [[|c cs]|]; try discriminate Hc.
  destruct (profiles _) as [[|p ps]|]; try discriminate Hp.
  eauto 6.
Qed.

Lemma retrieval_completed_inv_witness :
  exists c cs p ps,
    centroids (final (get_similarity_analysis_results done_remote 1 submitted))
      = Some (c :: cs) /\
    profiles (final (get_similarity_analysis_results done_remote 1 submitted))
      = Some (p :: ps).
Proof.
  apply (retrieval_completed_inv done_remote 1 submitted
           (round3 ((90 - 0) / inject_Z 60))).
  reflexivity.
Defined.

(** X19: once a retrieval has reported a completed analysis, a query
    with valid labels run in the store it left is encoded and the
    encoded point is matched against the retrieved centroids without
    [TypeError] or [ValueError] from the matching: the callback answers
    with the rendering of the profile at the matched position, or with
    [IndexError] when the profile list is shorter than that position. *)
Theorem retrieve_then_match
    (r : remote) (n_clicks : Z) (g : globals) (x : Q)
    (c : cdm) (t n m : string) :
  outcome (get_similarity_analysis_results r n_clicks g) = Ok (completed x) ->
  t <> "" -> n <> "" -> m <> "" ->
  In t (t_values c) -> In n (n_values c) -> In m (m_values c) ->
  exists cs ps xi idx,
    centroids (final (get_similarity_analysis_results r n_clicks g)) = Some cs /\
    profiles (final (get_similarity_analysis_results r n_clicks g)) = Some ps /\
    outcome (encode_stage c t n m
               (final (get_similarity_analysis_results r n_clicks g))) = Ok xi /\
    outcome (closest_cluster xi
               (final (get_similarity_analysis_results r n_clicks g))) = Ok idx /\
    (idx < List.length cs)%nat /\
    outcome (survival_profile c (Some t) (Some n) (Some m)
               (final (get_similarity_analysis_results r n_clicks g))) =
    match nth_error ps idx with
    | Some q => rendered q
    | None => Raise IndexError
    end.
Proof.
  intros Hdone Ht Hn Hm It In_ Im.
  destruct (retrieval_completed_store r n_clicks g x Hdone) as (Hc & Hp).
  set (g' := final (get_similarity_analysis_results r n_clicks g)) in *.
  destruct (centroids g') as [cs|] eqn:Ec; [|discriminate Hc].
  destruct (profiles g') as [ps|] eqn:Ep; [|discriminate Hp].
  assert (Hne : cs <> []) by (destruct cs; [discriminate Hc|discriminate]).
  destruct (encode_stage_valid c t n m g' It In_ Im) as (xi & He).
  destruct (closest_cluster_some xi g' cs Ec Hne) as (idx & Hrun & _ & Hidx).
  exists cs, ps, xi, idx.
  split; [reflexivity|]. split; [reflexivity|].
  split; [rewrite He; reflexivity|].
  split; [rewrite Hrun; reflexivity|]. split; [exact Hidx|].
  rewrite (survival_profile_encoded c t n m g' xi Ht Hn Hm He).
  rewrite Hrun, (profile_frame_run idx g' ps Ep). unfold rendered.
  destruct (nth_error ps idx) as [q|]; [|reflexivity].
  destruct (mkDataFrame q (py_range 0 730 30)); reflexivity.
Qed.

Lemma retrieve_then_match_witness :
  exists cs ps xi idx,
    centroids (final (get_similarity_analysis_results done_remote 1 submitted))
      = Some cs /\
    profiles (final (get_similarity_analysis_results done_remote 1 submitted))
      = Some ps /\
    outcome (encode_stage scheme "T2" "N1" "M0"
               (final (get_similarity_analysis_results done_remote 1 submitted)))
      = Ok xi /\
    outcome (closest_cluster xi
               (final (get_similarity_analysis_results done_remote 1 submitted)))
      = Ok idx /\
    (idx < List.length cs)%nat /\
    outcome (survival_profile scheme (Some "T2") (Some "N1") (Some "M0")
               (final (get_similarity_analysis_results done_remote 1 submitted))) =
    match nth_error ps idx with
    | Some q => rendered q
    | None => Raise IndexError
    end.
Proof.
  apply (retrieve_then_match done_remote 1 submitted
           (round3 ((90 - 0) / inject_Z 60)) scheme "T2" "N1" "M0");
    try discriminate; try reflexivity; simpl; auto.
Defined.

(** ** The submission callback (lines 120-170) *)

Lemma same_results_refl g : same_results g g.
Proof. split; reflexivity. Qed.

Lemma same_results_trans g1 g2 g3 :
  same_results g1 g2 -> same_results g2 g3 -> same_results g1 g3.
Proof.
  intros (A1 & A2) (B1 & B2). split; congruence.
Qed.

Ltac keeps_results_step :=
  first
    [ apply keeps_ret; exact same_results_refl
    | apply keeps_lift; exact same_results_refl
    | apply keeps_load; exact same_results_refl
    | apply keeps_store; intros ?; split; reflexivity
    | apply (keeps_bind _ same_results_trans); [|intros ?] ].

(** X21: a submission never changes [centroids] or [profiles]: the
    results of an earlier analysis stay in the store while the new task
    runs, whether the submission succeeds or ends in an exception. *)
Theorem send_keeps_results (s : submission) (n : Z) (g : globals) :
  centroids (final (send_similarity_analysis_task s n g)) = centroids g /\
  profiles (final (send_similarity_analysis_task s n g)) = profiles g.
Proof.
  assert (H : keeps same_results (send_similarity_analysis_task s n)).
  { unfold send_similarity_analysis_task.
    destruct (0 <? n)%Z; [|keeps_results_step].
    repeat keeps_results_step.
    match goal with |- keeps _ (if ?b then _ else _) => destruct b end;
      keeps_results_step. }
  destruct (H g) as (H1 & H2). auto.
Qed.

(** X22: a clicked submission whose calls all succeed and whose task
    answer is a non-empty dict stores the new client, the submission
    time and the task answer, and returns the component holding the
    "Get results" button with zero clicks. *)
Theorem send_success (s : submission) (n : Z) (g : globals) (c : unit) (h : task_handle) :
  (0 < n)%Z ->
  s_client s = Ok c -> s_authenticate s = Ok tt -> s_setup_encryption s = Ok tt ->
  s_create s = Ok (CreatedTask h) ->
  send_similarity_analysis_task s n g =
  (Ok task_created,
   {| client := Some c; task := Some h; start := Some (s_time s);
      centroids := centroids g; profiles := profiles g |},
   send_trace).
Proof.
  intros Hn Hc Ha He Hk. unfold send_similarity_analysis_task.
  apply Z.ltb_lt in Hn. rewrite Hn.
  unfold bind, lift, store, load. rewrite Hc, Ha, He, Hk. reflexivity.
Qed.

Lemma send_success_witness :
  send_similarity_analysis_task accepted 1 two_profiles =
  (Ok task_created,
   {| client := Some tt; task := Some {| th_id := Some 4%Z |};
      start := Some (s_time accepted);
      centroids := centroids two_profiles; profiles := profiles two_profiles |},
   send_trace).
Proof.
  apply send_success; reflexivity.
Defined.

(** X23: when authentication fails, the callback ends in that exception
    with [client] already replaced by the new, unauthenticated client,
    while [start] and [task] still belong to the previous submission. *)
Theorem send_authentication_failure
    (s : submission) (n : Z) (g : globals) (c : unit) (e : exn) :
  (0 < n)%Z -> s_client s = Ok c -> s_authenticate s = Raise e ->
  send_similarity_analysis_task s n g =
  (Raise e, set_client (Some c) g, [Store Gclient; Load Gclient]).
Proof.
  intros Hn Hc Ha. unfold send_similarity_analysis_task.
  apply Z.ltb_lt in Hn. rewrite Hn.
  unfold bind, lift, store, load. rewrite Hc, Ha. reflexivity.
Qed.

Lemma send_authentication_failure_witness :
  send_similarity_analysis_task refused 1 submitted =
  (Raise ValueError, set_client (Some tt) submitted, [Store Gclient; Load Gclient]).
Proof.
  apply send_authentication_failure; reflexivity.
Defined.

(** X24: when the task answer is [None] or the empty dict, the callback
    reports that something went wrong, yet [start] and [task] have been
    overwritten; a later poll then fails on [task['id']], with
    [TypeError] for [None] and [KeyError] for the empty dict, without
    reaching the service. *)
Theorem send_falsy_answer
    (s : submission) (r : remote) (n n' : Z) (g : globals) (c : unit) (t : created) :
  (0 < n)%Z -> (0 < n')%Z ->
  s_client s = Ok c -> s_authenticate s = Ok tt -> s_setup_encryption s = Ok tt ->
  s_create s = Ok t -> created_truthy t = false ->
  outcome (send_similarity_analysis_task s n g) = Ok went_wrong /\
  task (final (send_similarity_analysis_task s n g)) = as_task t /\
  start (final (send_similarity_analysis_task s n g)) = Some (s_time s) /\
  get_similarity_analysis_results r n' (final (send_similarity_analysis_task s n g)) =
    (Raise (match t with CreatedNone => TypeError | _ => KeyError end),
     final (send_similarity_analysis_task s n g), [Load Gclient; Load Gtask]).
Proof.
  intros Hn Hn' Hc Ha He Hk Hf.
  assert (Hrun : send_similarity_analysis_task s n g =
    (Ok went_wrong,
     {| client := Some c; task := as_task t; start := Some (s_time s);
        centroids := centroids g; profiles := profiles g |}, send_trace)).
  { unfold send_similarity_analysis_task.
    apply Z.ltb_lt in Hn. rewrite Hn.
    unfold bind, lift, store, load. rewrite Hc, Ha, He, Hk.
    cbv beta iota. rewrite Hf. reflexivity. }
  rewrite Hrun. unfold outcome, final. cbn [fst snd task start].
  split; [reflexivity|]. split; [reflexivity|]. split; [reflexivity|].
  unfold get_similarity_analysis_results. apply Z.ltb_lt in Hn'. rewrite Hn'.
  destruct t as [| |h]; [reflexivity|reflexivity|discriminate Hf].
Qed.

Lemma send_falsy_answer_witness :
  outcome (send_similarity_analysis_task unanswered 1 submitted) = Ok went_wrong /\
  task (final (send_similarity_analysis_task unanswered 1 submitted))
    = as_task CreatedEmpty /\
  start (final (send_similarity_analysis_task unanswered 1 submitted))
    = Some (s_time unanswered) /\
  get_similarity_analysis_results idle_remote 1
      (final (send_similarity_analysis_task unanswered 1 submitted)) =
    (Raise KeyError, final (send_similarity_analysis_task unanswered 1 submitted),
     [Load Gclient; Load Gtask]).
Proof.
  apply (send_falsy_answer unanswered idle_remote 1 1 submitted tt CreatedEmpty);
    reflexivity.
Defined.

(** X25: submitting a new task while the store holds the non-empty
    results of an earlier analysis, and then polling the new task before
    it is complete, ends in [UnboundLocalError] instead of the "still
    waiting" message. *)
Theorem resubmit_then_poll
    (s : submission) (r : remote) (n n' : Z) (g : globals)
    (c : unit) (h : task_handle) (id : Z) (ti : task_info) :
  (0 < n)%Z -> (0 < n')%Z ->
  s_client s = Ok c -> s_authenticate s = Ok tt -> s_setup_encryption s = Ok tt ->
  s_create s = Ok (CreatedTask h) -> th_id h = Some id ->
  task_get r id = Ok ti -> is_complete ti = false ->
  nonempty (centroids g) = true -> nonempty (profiles g) = true ->
  outcome (get_similarity_analysis_results r n'
             (final (send_similarity_analysis_task s n g)))
    = Raise UnboundLocalError.
Proof.
  intros Hn Hn' Hc Ha He Hk Hid Hget Hco Hcs Hps.
  assert (Hrun : send_similarity_analysis_task s n g =
    (Ok task_created,
     {| client := Some c; task := Some h; start := Some (s_time s);
        centroids := centroids g; profiles := profiles g |}, send_trace)).
  { unfold send_similarity_analysis_task.
    apply Z.ltb_lt in Hn. rewrite Hn.
    unfold bind, lift, store, load. rewrite Hc, Ha, He, Hk. reflexivity. }
  rewrite Hrun. unfold final. cbn [fst snd].
  set (g' := {| client := Some c; task := Some h; start := Some (s_time s);
                centroids := centroids g; profiles := profiles g |}).
  rewrite (retrieval_polled r n' g' c h id ti Hn' eq_refl eq_refl Hid Hget), Hco.
  subst g'.
  rewrite report_run. cbn [centroids profiles]. rewrite Hcs, Hps. reflexivity.
Qed.

Lemma resubmit_then_poll_witness :
  outcome (get_similarity_analysis_results idle_remote 1
             (final (send_similarity_analysis_task accepted 1 two_profiles)))
    = Raise UnboundLocalError.
Proof.
  apply (resubmit_then_poll accepted idle_remote 1 1 two_profiles tt
           {| th_id := Some 4%Z |} 4
           {| ti_complete := Some false; ti_id := Some 3%Z |});
    reflexivity.
Defined.

(** ** Dropdown selections (lines 73-105 and 213-251) *)

Lemma truthy_label v : truthy v = true -> exists x, v = Some x /\ x <> "".
Proof.
  destruct v as [x|]; [|discriminate]. simpl. intros H. exists x.
  split; [reflexivity|]. intros ->. discriminate H.
Qed.

(** X26: for values delivered by the three dropdowns, in a store whose
    profile list is at least as long as its centroid list, the
    stage-matching callback does not end in [IndexError]: neither the
    label lookup nor the subscript of [profiles] can fail. *)
Theorem dropdown_selection_in_range
    (c : cdm) (t n m : option string) (g : globals) :
  offered (input_tstage c) t -> offered (input_nstage c) n ->
  offered (input_mstage c) m ->
  (forall cs ps, centroids g = Some cs -> profiles g = Some ps ->
                 (List.length cs <= List.length ps)%nat) ->
  outcome (survival_profile c t n m g) <> Raise IndexError.
Proof.
  intros Ot On Om Hlen.
  destruct (truthy t && truthy n && truthy m) eqn:Hsel.
  2: { unfold survival_profile. rewrite Hsel. discriminate. }
  apply andb_prop in Hsel. destruct Hsel as (Hsel & Hm).
  apply andb_prop in Hsel. destruct Hsel as (Ht & Hn).
  destruct (truthy_label t Ht) as (t' & -> & Ht').
  destruct (truthy_label n Hn) as (n' & -> & Hn').
  destruct (truthy_label m Hm) as (m' & -> & Hm').
  simpl in Ot, On, Om.
  destruct (encode_stage_valid c t' n' m' g Ot On Om) as (xi & He).
  rewrite (survival_profile_encoded c t' n' m' g xi Ht' Hn' Hm' He).
  destruct (centroids g) as [cs|] eqn:Hc.
  2: { rewrite (closest_cluster_unset xi g Hc). discriminate. }
  destruct cs as [|c0 cs].
  { rewrite (closest_cluster_run xi g [] Hc). discriminate. }
  destruct (closest_cluster_some xi g (c0 :: cs) Hc) as (idx & Hrun & _ & Hidx);
    [discriminate|].
  rewrite Hrun.
  destruct (profiles g) as [ps|] eqn:Hp.
  2: { rewrite (profile_frame_unset idx g Hp). discriminate. }
  rewrite (profile_frame_run idx g ps Hp).
  specialize (Hlen (c0 :: cs) ps eq_refl eq_refl).
  destruct (nth_error ps idx) as [p|] eqn:Hi.
  - unfold mkDataFrame. destruct (Nat.eqb _ _); discriminate.
  - exfalso. apply nth_error_None in Hi. lia.
Qed.

Lemma dropdown_selection_in_range_witness :
  outcome (survival_profile scheme (Some "T2") (Some "N0") (Some "M1") two_profiles)
    <> Raise IndexError.
Proof.
  apply dropdown_selection_in_range.
  - simpl. auto.
  - simpl. auto.
  - simpl. auto.
  - intros cs ps Hc Hp. injection Hc as <-. injection Hp as <-. simpl. lia.
Defined.

(** ** The shape of a matching step (lines 226-228) *)

(** X27: over a non-empty centroid set the matching step loads
    [centroids] once, calls the distance routine once per centroid and
    the minimum once, and returns a position below the number of
    centroids, leaving the store unchanged. *)
Theorem closest_cluster_in_range (g : globals) (xi : point) (cs : list point) :
  centroids g = Some cs -> cs <> [] ->
  exists idx,
    closest_cluster xi g =
      (Ok idx, g,
       Load Gcentroids :: repeat (Call DistanceEuclidean) (List.length cs)
         ++ [Call NpArgmin]) /\
    (idx < List.length cs)%nat.
Proof.
  intros Hc Hne.
  destruct (argmin_spec (map (euclidean xi) cs)) as (i & v & Ha & Hv & _).
  - destruct cs; [congruence|discriminate].
  - exists i. rewrite (closest_cluster_run xi g cs Hc), Ha.
    split; [reflexivity|].
    rewrite <- (length_map (euclidean xi)). apply nth_error_Some. congruence.
Qed.

Lemma closest_cluster_in_range_witness :
  exists idx,
    closest_cluster sample_query two_profiles =
      (Ok idx, two_profiles,
       Load Gcentroids :: repeat (Call DistanceEuclidean) (List.length two_centroids)
         ++ [Call NpArgmin]) /\
    (idx < List.length two_centroids)%nat.
Proof.
  apply (closest_cluster_in_range two_profiles sample_query two_centroids).
  - reflexivity.
  - discriminate.
Defined.
